(** * Vending machine: the purchase transaction engine

    A shallow embedding of [user.py], [product.py] and [user_utils.py].

    The two CSV files [./user_db.csv] and [./product_db.csv] are the only
    state of the program.  Every function re-reads the file it needs with
    [pd.read_csv] and rewrites it with [write_to_csv]; the embedding threads
    the two files through a state-and-exception monad, so that a write that
    happens before a [raise] stays written, exactly as on disk.

    Modelling conventions:
    - a data frame is the list of its rows, in file order, duplicates kept;
      [df[df[col] == v]] is [filter]; [df.loc[mask, [col]] op= v] is [map];
    - Python [int] is [Z]; [//] and [%] are [Z.div] and [Z.modulo], which
      round the same way as Python for the positive divisors used here.
      pandas keeps the integer columns as 64-bit integers, and arithmetic on
      a column wraps around; the arithmetic of the embedding is that of [Z],
      which agrees with it as long as the stored numbers and the results are
      64-bit integers.  The general statements about sums and differences
      of stored numbers say so in their hypotheses ([int64], [int64_max]);
    - a row holds what the program gets when it reads the file.  pandas
      types each column anew at every [read_csv], so that a text such as
      [NA] is read as a missing value and a column of numerals as numbers.
      A text that is [plain] is always read back as it was written; where
      a statement depends on new text, or on the text that is left after a
      row was removed, being read back as such, it is made for files and
      arguments that are plain;
    - an exception is its class, its message and the cause given by
      [raise ... from e];
    - the files exist: a file is either empty (pandas raises
      [EmptyDataError]) or holds a header and rows. *)

From Stdlib Require Import ZArith List Sorted Ascii String DecimalString Bool Lia.
Import ListNotations.

Local Open Scope Z_scope.
Local Open Scope string_scope.
Local Open Scope list_scope.

(** ** exceptions.py, and the built-in exceptions the code meets *)

Module exceptions.

Inductive kind : Type :=
  | UserNotCreatedException
  | UserNotFoundException
  | UserNotUpdatedException
  | UserNotDeletedException
  | UserNotBuyerException
  | UserNotSellerException
  | UserPasswordMatchException
  | UserExistsException
  | ProductNotCreatedException
  | ProductNotFoundException
  | ProductNotUpdatedException
  | ProductNotDeletedException
  | ProductExistsException
  | ProductAmountUnavailableException
  | NonAllowedDepositException
  | ZeroDepositException
  | PurchaseException
  (* built-in and library exceptions *)
  | IndexError          (* [value[0]] on an empty selection *)
  | UnboundLocalError   (* a local variable read before assignment *)
  | ValidationError     (* pydantic: a validator raised ValueError *)
  | EmptyDataError.     (* pandas: read_csv on an empty file; a ValueError *)

Scheme Equality for kind.

(** [Exn k msg] is [k(msg)]; [ExnFrom k msg e] is [k(msg)] raised [from e]. *)
Inductive exn : Type :=
  | Exn (k : kind) (message : string)
  | ExnFrom (k : kind) (message : string) (cause : exn).

Definition kind_of (e : exn) : kind :=
  match e with Exn k _ | ExnFrom k _ _ => k end.

Definition message_of (e : exn) : string :=
  match e with Exn _ m | ExnFrom _ m _ => m end.

Definition cause_of (e : exn) : option exn :=
  match e with Exn _ _ => None | ExnFrom _ _ c => Some c end.

(** [isinstance e k]: the except clause [except k] catches [e].  None of the
    classes above derives from another one of them, apart from [Exception],
    which is handled as "every exception". *)
Definition isinstance (e : exn) (k : kind) : bool := kind_beq (kind_of e) k.

End exceptions.
Import exceptions.

(** ** The files *)

(** The rows of the two tables; the fields of [UserModel] and
    [ProductModel]. *)
Module row.

Record UserRow : Type := mkUser
  { id : string; username : string; password : string;
    deposit : Z; role : string }.

Record ProductRow : Type := mkProduct
  { productId : string; productName : string; cost : Z;
    amountAvailable : Z; sellerId : string }.

End row.
Export row.

Inductive csv (R : Type) : Type :=
  | EmptyFile
  | Table (rows : list R).
Arguments EmptyFile {R}.
Arguments Table {R} rows.

Record world : Type := mkWorld
  { user_db : csv UserRow; product_db : csv ProductRow }.

Definition set_user_db (f : csv UserRow) (w : world) : world :=
  {| user_db := f; product_db := product_db w |}.

Definition set_product_db (f : csv ProductRow) (w : world) : world :=
  {| user_db := user_db w; product_db := f |}.

(** ** The state-and-exception monad *)

Inductive result (A : Type) : Type :=
  | Ok (a : A)
  | Err (e : exn).
Arguments Ok {A} a.
Arguments Err {A} e.

Definition M (A : Type) : Type := world -> world * result A.

Definition ret {A} (a : A) : M A := fun w => (w, Ok a).

Definition raise {A} (e : exn) : M A := fun w => (w, Err e).

Definition bind {A B} (m : M A) (k : A -> M B) : M B :=
  fun w => match m w with
           | (w', Ok a) => k a w'
           | (w', Err e) => (w', Err e)
           end.

(** [try: m except Exception as e: h e]; a handler that does not match
    re-raises. *)
Definition try_except {A} (m : M A) (h : exn -> M A) : M A :=
  fun w => match m w with
           | (w', Ok a) => (w', Ok a)
           | (w', Err e) => h e w'
           end.

Notation "x <- m ;; k" := (bind m (fun x => k))
  (at level 61, m at next level, right associativity).
Notation "m ;;; k" := (bind m (fun _ => k))
  (at level 61, right associativity).

(** [raise k(msg)] and [raise k(msg) from e]. *)
Definition raise_new {A} (k : kind) (msg : string) : M A :=
  raise (Exn k msg).

Definition raise_from {A} (k : kind) (msg : string) (e : exn) : M A :=
  raise (ExnFrom k msg e).

(** ** Python *)

(** Reading a local variable that only some branch has assigned.  The
    message is the one of Python up to 3.10; later versions word it
    differently. *)
Definition local {A} (name : string) (v : option A) : M A :=
  match v with
  | Some a => ret a
  | None =>
      raise_new UnboundLocalError
        ("local variable '" ++ name ++ "' referenced before assignment")%string
  end.

(** ** pandas *)

Inductive mode : Type := mode_w | mode_a.

(** [pd.read_csv].  The rows are what pandas makes of the file, column by
    column. *)
Definition read_csv {R} (file : world -> csv R) : M (list R) :=
  fun w => match file w with
           | EmptyFile =>
               (w, Err (Exn EmptyDataError "No columns to parse from file"))
           | Table rows => (w, Ok rows)
           end.

(** [DataFrame.to_csv(name, mode=mode, header=header, index=False)] seen from
    the next [read_csv]: with a header the rows are the table; without one
    the first line written is read back as the header.  Appending a header
    to a non-empty file is never done by the code.  The next [read_csv]
    types the columns anew: rows that are rewritten as they were read are
    read again as before, and newly written text is read back as written
    when it is [plain] and the other text of the file is. *)
Definition to_csv {R} (pd_dataframe : list R) (header : bool) (m : mode)
    (old : csv R) : csv R :=
  match m, header, old with
  | mode_w, true, _ => Table pd_dataframe
  | mode_w, false, _ => Table (tl pd_dataframe)
  | mode_a, true, EmptyFile => Table pd_dataframe
  | mode_a, false, EmptyFile => Table (tl pd_dataframe)
  | mode_a, _, Table rows => Table (rows ++ pd_dataframe)
  end.

(** [value[0]] for every column of a selection: its first row. *)
Definition first_row {R} (df : list R) : M R :=
  match df with
  | r :: _ => ret r
  | [] => raise_new IndexError "list index out of range"
  end.

(** [df[mask].index]: the labels of the selected rows.  [read_csv] numbers
    the rows 0, 1, 2, ... *)
Fixpoint labels_from {R} (i : nat) (mask : R -> bool) (df : list R) : list nat :=
  match df with
  | [] => []
  | r :: rest =>
      if mask r then i :: labels_from (S i) mask rest
      else labels_from (S i) mask rest
  end.

Definition index {R} (mask : R -> bool) (df : list R) : list nat :=
  labels_from 0 mask df.

(** [an_index[0]]. *)
Definition index_0 (labels : list nat) : M nat :=
  match labels with
  | l :: _ => ret l
  | [] => raise_new IndexError "index 0 is out of bounds for axis 0 with size 0"
  end.

(** [df.drop(index=label)]: the row of that label is removed. *)
Fixpoint drop {R} (label : nat) (df : list R) : list R :=
  match df, label with
  | [], _ => []
  | _ :: rest, O => rest
  | r :: rest, S l => r :: drop l rest
  end.

(** ** user_utils.py *)

Module user_utils.

Definition hash_password (password : string) : string := password.

Definition verify_password (hashed_password normal_password : string) : bool :=
  String.eqb (hash_password normal_password) hashed_password.

Definition write_users (pd_dataframe : list UserRow) (header : bool)
    (m : mode) : M unit :=
  fun w => (set_user_db (to_csv pd_dataframe header m (user_db w)) w, Ok tt).

Definition write_products (pd_dataframe : list ProductRow) (header : bool)
    (m : mode) : M unit :=
  fun w => (set_product_db (to_csv pd_dataframe header m (product_db w)) w, Ok tt).

End user_utils.
Import user_utils.

(** ** pydantic *)

(** One validator of a [BaseModel]: the message of its [ValueError], if it
    raises. *)
Definition validator (failed : bool) (msg : string) : list string :=
  if failed then [msg] else [].

(** The [ValidationError] raised when some validator failed.  pydantic
    gathers the failures of all fields; the message keeps them in order.
    pydantic's own text is a report of several lines that names the model
    and the fields around these messages. *)
Definition validated {A} (errors : list string) (a : A) : M A :=
  match errors with
  | [] => ret a
  | _ :: _ => raise_new ValidationError (String.concat "; " errors)
  end.

(** ** product.py *)

Module product.

Definition has_productId (v : string) (r : ProductRow) : bool :=
  String.eqb (productId r) v.

Definition has_productName (v : string) (r : ProductRow) : bool :=
  String.eqb (productName r) v.

Definition has_seller_and_name (s n : string) (r : ProductRow) : bool :=
  String.eqb (sellerId r) s && String.eqb (productName r) n.

Definition set_amountAvailable (v : Z) (r : ProductRow) : ProductRow :=
  {| productId := productId r; productName := productName r; cost := cost r;
     amountAvailable := v; sellerId := sellerId r |}.

(** The validator [sellerId_not_found] reads [./user_db.csv].  It raises
    [UserNotFoundException], which is no [ValueError]: pydantic lets it
    through, whatever the other validators found.  [EmptyDataError] is a
    [ValueError] and is gathered like the others.  When [empty_sellerId]
    has raised, pydantic skips the second validator of the field. *)
Definition sellerId_validators (value : string) : M (list string) :=
  if String.eqb value "" then ret ["sellerId cannot be empty"]
  else
    try_except
      (pd_dataframe <- read_csv user_db ;;
       if negb (existsb (String.eqb value) (map id pd_dataframe))
       then raise_new UserNotFoundException "sellerId does not exist"
       else ret [])
      (fun e => if isinstance e EmptyDataError then ret [message_of e]
                else raise e).

(** The two validators of [cost] run in the order they are declared; the
    second one is skipped when the first has raised. *)
Definition cost_validators (value : Z) : list string :=
  if negb (value mod 5 =? 0)%Z then ["cost must be multiple of 5"]
  else validator (value <? 0)%Z "cost must be greater than 0".

(** The failures of the validators that look at the record alone, in the
    order of the fields. *)
Definition field_errors (data : ProductRow) : list string :=
  validator (String.eqb (productId data) "") "productId cannot be empty"
  ++ validator (String.eqb (productName data) "") "productName cannot be empty"
  ++ cost_validators (cost data)
  ++ validator (amountAvailable data <? 0)%Z
       "amountAvailable must be greater than 0".

Definition ProductModel (data : ProductRow) : M ProductRow :=
  e_sellerId <- sellerId_validators (sellerId data) ;;
  validated (field_errors data ++ e_sellerId) data.

(** [new_id] stands for the 16 random characters drawn for [productId]. *)
Definition create_new_product (new_id productName : string)
    (cost amountAvailable : Z) (sellerId : string) : M ProductRow :=
  let data := mkProduct new_id productName cost amountAvailable sellerId in
  let pd_dataframe := [data] in
  try_except
    (product_dataframe <- read_csv product_db ;;
     match filter (has_seller_and_name sellerId productName) product_dataframe with
     | _ :: _ => raise_new ProductExistsException "Product already exists"
     | [] => write_products pd_dataframe false mode_a
     end)
    (fun e =>
       if isinstance e EmptyDataError  (* for first user data *)
       then write_products pd_dataframe true mode_a
       else raise_from ProductNotCreatedException
              "Product could not be added to db" e) ;;;
  ProductModel data.

Definition get_product (productId productName : option string) : M ProductRow :=
  try_except
    (pd_dataframe <- read_csv product_db ;;
     product_df <-
       local "product_df"
         match productId, productName with
         | Some v, _ => Some (filter (has_productId v) pd_dataframe)
         | None, Some v => Some (filter (has_productName v) pd_dataframe)
         | None, None => None
         end ;;
     data <- first_row product_df ;;
     ProductModel data)
    (fun e => if isinstance e IndexError
              then raise_from ProductNotFoundException "Username does not exist" e
              else raise e).

(** [df.loc[df["productId"] == productId, ["amountAvailable"]] -= n]: every
    row of that id is updated.  The column holds 64-bit integers; this is
    its arithmetic as long as the difference is one. *)
Definition decrement_amount (v : string) (n : Z) (df : list ProductRow)
  : list ProductRow :=
  map (fun r => if has_productId v r
                then set_amountAvailable (amountAvailable r - n) r
                else r) df.

Definition take_product (productId : string) (no_of_products : Z) : M ProductRow :=
  try_except
    (pd_dataframe <- read_csv product_db ;;
     available <-
       first_row (map amountAvailable (filter (has_productId productId) pd_dataframe)) ;;
     if (available <? no_of_products)%Z
     then raise_new PurchaseException "Purchase amount not available"
     else
       let pd_dataframe :=
         decrement_amount productId no_of_products pd_dataframe in
       let product_df := filter (has_productId productId) pd_dataframe in
       write_products pd_dataframe true mode_w ;;;
       data <- first_row product_df ;;
       ProductModel data)
    (fun e => raise_from ProductNotUpdatedException
                "Product could not be taken from Vending Machine" e).

Definition set_cost (v : Z) (r : ProductRow) : ProductRow :=
  {| productId := productId r; productName := productName r; cost := v;
     amountAvailable := amountAvailable r; sellerId := sellerId r |}.

(** [(df["sellerId"] == sellerId) & (df["productName"] == productName)] with
    an optional name: compared with [None], no row matches. *)
Definition owned_by (s : string) (n : option string) (r : ProductRow) : bool :=
  String.eqb (sellerId r) s
  && match n with
     | Some v => String.eqb (productName r) v
     | None => false
     end.

Definition update_product_cost (sellerId : string) (productName : option string)
    (cost : Z) : M ProductRow :=
  try_except
    (pd_dataframe <- read_csv product_db ;;
     if negb (existsb (String.eqb sellerId) (map row.sellerId pd_dataframe))
     then raise_new UserNotSellerException "User is not a seller"
     else
       match filter (owned_by sellerId productName) pd_dataframe with
       | [] => raise_new ProductNotFoundException "Product does not exist"
       | _ :: _ =>
           let pd_dataframe :=
             map (fun r => if owned_by sellerId productName r
                           then set_cost cost r else r) pd_dataframe in
           let product_df := filter (owned_by sellerId productName) pd_dataframe in
           write_products pd_dataframe true mode_w ;;;
           data <- first_row product_df ;;
           ProductModel data
       end)
    (fun e => raise_from ProductNotUpdatedException
                "Product cost could not be updated" e).

Definition update_product_amountAvailable (sellerId : string)
    (productName : option string) (amountAvailable : Z) : M ProductRow :=
  try_except
    (pd_dataframe <- read_csv product_db ;;
     if negb (existsb (String.eqb sellerId) (map row.sellerId pd_dataframe))
     then raise_new UserNotSellerException "User is not a seller"
     else
       match filter (owned_by sellerId productName) pd_dataframe with
       | [] => raise_new ProductNotFoundException "Product does not exist"
       | _ :: _ =>
           let pd_dataframe :=
             map (fun r => if owned_by sellerId productName r
                           then set_amountAvailable amountAvailable r else r)
               pd_dataframe in
           let product_df := filter (owned_by sellerId productName) pd_dataframe in
           write_products pd_dataframe true mode_w ;;;
           data <- first_row product_df ;;
           ProductModel data
       end)
    (fun e => raise_from ProductNotUpdatedException
                "Product amountAvailable could not be updated" e).

Definition delete_product (sellerId productName : string) : M bool :=
  try_except
    (pd_dataframe <- read_csv product_db ;;
     if negb (existsb (String.eqb sellerId) (map row.sellerId pd_dataframe))
     then raise_new UserNotSellerException "User is not a seller"
     else
       match filter (owned_by sellerId (Some productName)) pd_dataframe with
       | [] => raise_new ProductNotFoundException "Product does not exist"
       | _ :: _ =>
           label <- index_0 (index (owned_by sellerId (Some productName))
                               pd_dataframe) ;;
           let pd_dataframe := drop label pd_dataframe in
           write_products pd_dataframe true mode_w ;;;
           ret true
       end)
    (fun e => raise_from ProductNotDeletedException
                "Product could not be deleted" e).

End product.
Import product.

(** ** user.py *)

Module user.

Module UserEnum.
Definition SELLER : string := "seller".
Definition BUYER : string := "buyer".
End UserEnum.

Definition has_username (v : string) (r : UserRow) : bool :=
  String.eqb (username r) v.

Definition has_id (v : string) (r : UserRow) : bool :=
  String.eqb (id r) v.

Definition set_deposit (v : Z) (r : UserRow) : UserRow :=
  {| id := id r; username := username r; password := password r;
     deposit := v; role := role r |}.

(** [df.loc[df["username"] == username, ["deposit"]] = f(deposit)]: every
    row of that username is updated.  The column holds 64-bit integers; the
    sums and differences taken for [f] are its arithmetic as long as the
    result is one. *)
Definition update_deposit (v : string) (f : Z -> Z) (df : list UserRow)
  : list UserRow :=
  map (fun r => if has_username v r then set_deposit (f (deposit r)) r else r) df.

Definition user_errors (data : UserRow) : list string :=
  validator (String.eqb (id data) "") "id cannot be empty"
  ++ validator (String.eqb (username data) "") "username cannot be empty"
  ++ validator (String.eqb (password data) "") "password cannot be empty"
  ++ validator (deposit data <? 0)%Z "deposit must be greater than 0".

Definition UserModel (data : UserRow) : M UserRow :=
  validated (user_errors data) data.

Definition get_user (username id : option string) : M UserRow :=
  try_except
    (pd_dataframe <- read_csv user_db ;;
     user_df <-
       local "user_df"
         match username, id with
         | Some v, _ => Some (filter (has_username v) pd_dataframe)
         | None, Some v => Some (filter (has_id v) pd_dataframe)
         | None, None => None
         end ;;
     data <- first_row user_df ;;
     UserModel data)
    (fun e => if isinstance e IndexError
              then raise_from UserNotFoundException "Username does not exist" e
              else raise e).

(** The coins a buyer may insert: [deposit in {5, 10, 20, 50, 100}]. *)
Definition allowed_coin (deposit : Z) : bool :=
  existsb (Z.eqb deposit) [5; 10; 20; 50; 100]%Z.

Definition decimal (n : Z) : string :=
  NilZero.string_of_int (Z.to_int n).

Definition deposit_amount (username : string) (deposit : Z) : M UserRow :=
  try_except
    (pd_dataframe <- read_csv user_db ;;
     role <- first_row (map role (filter (has_username username) pd_dataframe)) ;;
     if negb (String.eqb role UserEnum.BUYER)
     then raise_new UserNotBuyerException
            "User deposit cannot be updated. User is not a buyer"
     else
       pd_dataframe <-
         (if negb (deposit =? 0)%Z
          then if allowed_coin deposit
               then ret (update_deposit username (fun d => d + deposit) pd_dataframe)
               else raise_new NonAllowedDepositException
                      ("deposit of " ++ decimal deposit ++ " coin is not allowed")%string
          else ret pd_dataframe) ;;
       let user_df := filter (has_username username) pd_dataframe in
       write_users pd_dataframe true mode_w ;;;
       data <- first_row user_df ;;
       UserModel data)
    (fun e => if isinstance e IndexError
              then raise_from UserNotFoundException "Username does not exist" e
              else raise_from UserNotUpdatedException
                     "Amount could not be deposited into User account" e).

(** [user_df] is assigned inside [if amount != 0:] only, and read after it. *)
Definition deduct_amount (username : string) (amount : Z) : M UserRow :=
  try_except
    (pd_dataframe <- read_csv user_db ;;
     role <- first_row (map role (filter (has_username username) pd_dataframe)) ;;
     if negb (String.eqb role UserEnum.BUYER)
     then raise_new UserNotBuyerException
            "User deposit cannot be updated. User is not a buyer"
     else
       user_df <-
         (if negb (amount =? 0)%Z
          then
            let pd_dataframe :=
              update_deposit username (fun d => d - amount) pd_dataframe in
            let user_df := filter (has_username username) pd_dataframe in
            write_users pd_dataframe true mode_w ;;;
            ret (Some user_df)
          else ret None) ;;
       user_df <- local "user_df" user_df ;;
       data <- first_row user_df ;;
       UserModel data)
    (fun e => if isinstance e IndexError
              then raise_from UserNotFoundException "Username does not exist" e
              else raise_from UserNotUpdatedException
                     "Amount could not be deducted from User account" e).

(** The change loop of [buy_product]:
    [for coin in [100, 50, 20, 10, 5]: if amount > 0: ...]. *)
Definition change_step (st : list Z * Z) (coin : Z) : list Z * Z :=
  let '(change, amount) := st in
  if (amount >? 0)%Z
  then
    let num := (amount / coin)%Z in
    (change ++ repeat coin (Z.to_nat num), (amount - coin * num)%Z)
  else (change, amount).

Definition make_change (amount : Z) : list Z :=
  fst (fold_left change_step [100; 50; 20; 10; 5]%Z ([], amount)).

(** What other processes do to the two files while a purchase runs. *)
Definition interleave (others : world -> world) : M unit :=
  fun w => (others w, Ok tt).

(** The [try] block that ends [buy_product], with the writes of other
    processes between the debit and the decrement made explicit.  Inside the
    [try], [user_obj] is rebound to the row returned by [deduct_amount]; that
    row was selected by [user_obj.username], so the handler's
    [user_obj.username] is the same string on both paths, and [product_obj]
    is rebound only by the last statement that can raise. *)
Definition commit_purchase (others : world -> world)
    (user_obj : UserRow) (product_obj : ProductRow) (no_of_products : Z)
  : M (Z * ProductRow * list Z) :=
  try_except
    (user_obj' <-
       deduct_amount (row.username user_obj) (cost product_obj * no_of_products) ;;
     interleave others ;;;
     product_obj' <-
       take_product (row.productId product_obj) no_of_products ;;
     let change := make_change (deposit user_obj') in
     ret ((cost product_obj' * no_of_products)%Z, product_obj', change))
    (fun e =>
       _ <- deposit_amount (row.username user_obj)
              (cost product_obj * no_of_products) ;;
       raise_from UserNotUpdatedException
         "Product could not be bought. Amount has been reimbursed." e).

(** [buy_product]: the checks, then the [try] block. *)
Definition buy_product_racing (others : world -> world)
    (username productId : string) (no_of_products : Z)
  : M (Z * ProductRow * list Z) :=
  user_obj <-
    try_except (get_user (Some username) None)
      (fun e => if isinstance e UserNotFoundException
                then raise_from UserNotFoundException "User does not exist" e
                else raise e) ;;
  if String.eqb (role user_obj) UserEnum.SELLER
  then raise_new UserNotBuyerException
         "User cannot buy product. The account is a Seller account"
  else
  if (deposit user_obj =? 0)%Z
  then raise_new ZeroDepositException "User cannot buy without deposit"
  else
  product_obj <-
    try_except (get_product (Some productId) None)
      (fun e => if isinstance e ProductNotFoundException
                then raise_from ProductNotFoundException "Product not found" e
                else raise e) ;;
  if (amountAvailable product_obj <? no_of_products)%Z
  then raise_new ProductAmountUnavailableException
         "Requested amount of product is not available"
  else
  if (deposit user_obj <? cost product_obj * no_of_products)%Z
  then raise_new PurchaseException "User has exceeded deposit amount"
  else commit_purchase others user_obj product_obj no_of_products.

(** The program on its own: nothing else touches the files. *)
Definition buy_product : string -> string -> Z -> M (Z * ProductRow * list Z) :=
  buy_product_racing (fun w => w).

Definition set_password (v : string) (r : UserRow) : UserRow :=
  {| id := id r; username := username r; password := v;
     deposit := deposit r; role := role r |}.

(** [new_id] stands for the 16 random characters drawn for [id]. *)
Definition create_new_user (new_id username password role : string) : M UserRow :=
  let data := mkUser new_id username (hash_password password) 0 role in
  let pd_dataframe := [data] in
  try_except  (* check if user already exists *)
    (user <- get_user (Some username) None ;;
     if String.eqb (row.username user) username
     then raise_new UserExistsException "Username already exists"
     else ret tt)
    (fun e =>
       if isinstance e UserNotFoundException
       then write_users pd_dataframe false mode_a
       else if isinstance e EmptyDataError  (* for first user data *)
       then write_users pd_dataframe true mode_a
       else raise_from UserNotCreatedException
              "User account could not be created" e) ;;;
  UserModel data.

Definition update_password (username : string) (password : option string)
  : M UserRow :=
  try_except
    (pd_dataframe <- read_csv user_db ;;
     let pd_dataframe :=
       match password with
       | Some v =>
           map (fun r => if has_username username r
                         then set_password (hash_password v) r else r)
             pd_dataframe
       | None => pd_dataframe
       end in
     let user_df := filter (has_username username) pd_dataframe in
     write_users pd_dataframe true mode_w ;;;
     data <- first_row user_df ;;
     UserModel data)
    (fun e => if isinstance e IndexError
              then raise_from UserNotFoundException "Username does not exist" e
              else raise_from UserNotUpdatedException
                     "Password could not be updated" e).

Definition delete_user (username : string) : M bool :=
  try_except
    (pd_dataframe <- read_csv user_db ;;
     label <- index_0 (index (has_username username) pd_dataframe) ;;
     let pd_dataframe := drop label pd_dataframe in
     write_users pd_dataframe true mode_w ;;;
     ret true)
    (fun e => if isinstance e IndexError
              then raise_from UserNotFoundException "Username not found" e
              else raise_from UserNotDeletedException
                     "User account could not be deleted" e).

End user.
Import user.

(** ** api.py *)

(** The handlers are modelled as functions of the values FastAPI hands them.
    A handler returns its value or raises [HTTPException]; [f"{e}"] is the
    message of [e].  [content] is the dictionary given to [json.dumps]; the
    serialisation itself is not modelled. *)
Module api.

Inductive http (A : Type) : Type :=
  | Returned (a : A)
  | HTTPException (status_code : Z) (detail : string)
      (headers : list (string * string)).
Arguments Returned {A} a.
Arguments HTTPException {A} status_code detail headers.

Definition endpoint (A : Type) : Type := world -> world * http A.

Record Response : Type := mkResponse
  { content : list (string * string); status_code : Z; media_type : string }.

Record HTTPBasicCredentials : Type := mkCredentials
  { username : string; password : string }.


Record UserDeposit : Type := mkUserDeposit { deposit : Z }.

Definition HTTP_200_OK : Z := 200.
Definition HTTP_400_BAD_REQUEST : Z := 400.
Definition HTTP_401_UNAUTHORIZED : Z := 401.

(** [try: body except Exception as e: raise HTTPException(status, f"{e}")]. *)
Definition try_http {A} (body : M A) (status : Z) : endpoint A :=
  fun w => match body w with
           | (w', Ok a) => (w', Returned a)
           | (w', Err e) =>
               (w', HTTPException status (message_of e)
                      [("WWW-Authenticate", "Basic")])
           end.

Definition get_current_username (credentials : HTTPBasicCredentials)
  : endpoint string :=
  fun w =>
    match try_http (get_user (Some (username credentials)) None)
            HTTP_401_UNAUTHORIZED w with
    | (w', HTTPException s d h) => (w', HTTPException s d h)
    | (w', Returned user) =>
        if negb (verify_password (row.password user) (password credentials))
        then (w', HTTPException HTTP_401_UNAUTHORIZED "Incorrect password"
                    [("WWW-Authenticate", "Basic")])
        else (w', Returned (username credentials))
    end.

(** [username: str = Depends(get_current_username)]: the handler runs on
    the value of the dependency, and not at all when the dependency
    raises. *)
Definition Depends {A B} (dependency : endpoint A) (handler : A -> endpoint B)
  : endpoint B :=
  fun w => match dependency w with
           | (w', Returned a) => handler a w'
           | (w', HTTPException s d h) => (w', HTTPException s d h)
           end.

(** [POST /deposit], the first of the two handlers that [api.py] names
    [deposit_to_user_account]. *)
Definition deposit_to_user_account (request : UserDeposit) (username : string)
  : endpoint Response :=
  try_http
    (_ <- deposit_amount username (deposit request) ;;
     ret (mkResponse
            [("message",
              ("Deposit of " ++ decimal (deposit request)
               ++ " successfully added")%string)]
            HTTP_200_OK "application/json"))
    HTTP_400_BAD_REQUEST.


End api.

(** ** The rows of the test suite *)

Module examples.

(** [user1] and [user2] of [test_user.py], and the product the tests buy. *)
Definition Johny (deposit : Z) : UserRow :=
  mkUser "ab12" "Johny" "abcde" deposit "buyer".

Definition Blade : UserRow :=
  mkUser "uqfp2h1jh8at5pvo" "Blade" "abc2356" 0 "seller".

Definition apple (cost amountAvailable : Z) : ProductRow :=
  mkProduct "81prtrvd17363a5n" "apple" cost amountAvailable "uqfp2h1jh8at5pvo".

(** Johny holds [deposit]; an apple costs [cost] and [stock] are left. *)
Definition vending (deposit cost stock : Z) : world :=
  {| user_db := Table [Johny deposit; Blade];
     product_db := Table [apple cost stock] |}.

(** Another buyer takes the last apple while a purchase is under way. *)
Definition last_apple_taken (cost : Z) (w : world) : world :=
  set_product_db (Table [apple cost 0]) w.

End examples.
Import examples.

(** * Vocabulary of the statements *)

(** Python's [sum] on a list of integers. *)
Definition total (coins : list Z) : Z := fold_right Z.add 0%Z coins.

(** The greedy algorithm in the words of the specification: for each
    denomination, largest first, take [amount div denomination] coins of it
    and go on with what is left. *)
Fixpoint greedy (denominations : list Z) (amount : Z) : list Z :=
  match denominations with
  | [] => []
  | d :: rest =>
      repeat d (Z.to_nat (amount / d))
      ++ greedy rest (amount - d * (amount / d))%Z
  end.

Definition makeChange_spec (amount : Z) : list Z :=
  greedy [100; 50; 20; 10; 5]%Z amount.

(** What the greedy algorithm leaves unpaid. *)
Fixpoint leftover (denominations : list Z) (amount : Z) : Z :=
  match denominations with
  | [] => amount
  | d :: rest => leftover rest (amount mod d)
  end.

(** A computation that leaves both files as it found them. *)
Definition read_only {A} (m : M A) : Prop := forall w, fst (m w) = w.

(** The ids of the user table, which is all the seller check reads. *)
Definition user_ids (f : csv UserRow) : option (list string) :=
  match f with
  | EmptyFile => None
  | Table rows => Some (map id rows)
  end.

(** The rows a file holds. *)
Definition stored {R} (f : csv R) : list R :=
  match f with
  | EmptyFile => []
  | Table rows => rows
  end.


(** The seller already has a product of that name. *)
Definition name_taken (w : world) (seller name : string) : bool :=
  match filter (has_seller_and_name seller name) (stored (product_db w)) with
  | [] => false
  | _ :: _ => true
  end.

(** The two tables after [usr] has paid for [n] units of [p]. *)
Definition debited (usr : UserRow) (p : ProductRow) (n : Z)
    (urows : list UserRow) : list UserRow :=
  update_deposit (username usr) (fun d => d - cost p * n)%Z urows.

Definition decremented (p : ProductRow) (n : Z) (prows : list ProductRow)
  : list ProductRow :=
  decrement_amount (productId p) n prows.

(** The usernames, the ids and the product ids on file, in file order. *)
Definition usernames (w : world) : list string :=
  map username (stored (user_db w)).

Definition account_ids (w : world) : list string :=
  map id (stored (user_db w)).

Definition product_ids (w : world) : list string :=
  map productId (stored (product_db w)).

(** The (seller, name) pairs of the catalog. *)
Definition product_keys (w : world) : list (string * string) :=
  map (fun r => (sellerId r, productName r)) (stored (product_db w)).

(** Several deposits, one call after the other. *)
Fixpoint deposit_all (u : string) (coins : list Z) : M unit :=
  match coins with
  | [] => ret tt
  | c :: rest => deposit_amount u c ;;; deposit_all u rest
  end.


(** The common shape of [update_product_cost] and
    [update_product_amountAvailable]: [f] is the assignment to the column
    and [msg] the message of the wrapping exception. *)
Definition update_owned (f : ProductRow -> ProductRow) (msg : string)
    (s : string) (o : option string) : M ProductRow :=
  try_except
    (pd_dataframe <- read_csv product_db ;;
     if negb (existsb (String.eqb s) (map sellerId pd_dataframe))
     then raise_new UserNotSellerException "User is not a seller"
     else
       match filter (owned_by s o) pd_dataframe with
       | [] => raise_new ProductNotFoundException "Product does not exist"
       | _ :: _ =>
           let pd_dataframe :=
             map (fun r => if owned_by s o r then f r else r) pd_dataframe in
           let product_df := filter (owned_by s o) pd_dataframe in
           write_products pd_dataframe true mode_w ;;;
           data <- first_row product_df ;;
           ProductModel data
       end)
    (fun e => raise_from ProductNotUpdatedException msg e).

(** The integers of a column of 64-bit integers. *)
Definition int64_min : Z := -9223372036854775808.

Definition int64_max : Z := 9223372036854775807.

Definition int64 (z : Z) : Prop := (int64_min <= z <= int64_max)%Z.

(** Every number on file is a 64-bit integer. *)
Definition within_int64 (w : world) : Prop :=
  Forall (fun r => int64 (deposit r)) (stored (user_db w))
  /\ Forall (fun r => int64 (cost r) /\ int64 (amountAvailable r))
       (stored (product_db w)).

(** What the program maintains: usernames and product ids are unique, no
    deposit and no stock is negative, and none is beyond the largest 64-bit
    integer. *)
Definition consistent (w : world) : Prop :=
  NoDup (usernames w)
  /\ NoDup (product_ids w)
  /\ Forall (fun r => 0 <= deposit r <= int64_max)%Z (stored (user_db w))
  /\ Forall (fun r => 0 <= amountAvailable r <= int64_max)%Z
       (stored (product_db w)).

(** Text that pandas reads back as it was written, whatever else the column
    holds: ASCII letters and digits, the first a letter, and none of the
    words that pandas reads as a missing value, a truth value or a float,
    in any case of the letters. *)
Definition is_digit (c : ascii) : bool :=
  let n := nat_of_ascii c in
  ((48 <=? n) && (n <=? 57))%nat.

Definition is_letter (c : ascii) : bool :=
  let n := nat_of_ascii c in
  ((65 <=? n) && (n <=? 90) || (97 <=? n) && (n <=? 122))%nat.

Definition lower (c : ascii) : ascii :=
  let n := nat_of_ascii c in
  if ((65 <=? n) && (n <=? 90))%nat then ascii_of_nat (n + 32) else c.

Definition lowercase (s : string) : string :=
  string_of_list_ascii (map lower (list_ascii_of_string s)).

Definition words_pandas_converts : list string :=
  ["na"; "nan"; "null"; "none"; "true"; "false"; "inf"; "infinity"].

Definition plain (s : string) : bool :=
  match s with
  | EmptyString => false
  | String c _ =>
      is_letter c
      && forallb (fun c => is_letter c || is_digit c) (list_ascii_of_string s)
      && negb (existsb (String.eqb (lowercase s)) words_pandas_converts)
  end.

(** The text columns of the user file, and of the catalog, are plain. *)
Definition plain_users (w : world) : bool :=
  forallb (fun r => plain (id r) && plain (username r) && plain (password r)
                    && plain (role r))
    (stored (user_db w)).

Definition plain_products (w : world) : bool :=
  forallb (fun r => plain (productId r) && plain (productName r)
                    && plain (sellerId r))
    (stored (product_db w)).

(** A catalog of one pear of seller Blade, beside the accounts of the test
    suite. *)
Definition pear (cost amountAvailable : Z) : ProductRow :=
  mkProduct "p81rtrvd17363a5n" "pear" cost amountAvailable "uqfp2h1jh8at5pvo".

Definition stall (deposit cost stock : Z) : world :=
  {| user_db := Table [Johny deposit; Blade];
     product_db := Table [pear cost stock] |}.

(** * Properties *)

(** ** Passwords *)

(** C10: [hash_password] is the identity, so the stored password is the
    plaintext, and [verify_password (hash_password p) q] holds exactly when
    [q = p]. *)
Theorem hash_password_is_plaintext (p q : string) :
  hash_password p = p
  /\ (verify_password (hash_password p) q = true <-> q = p).
Proof.
  split; [reflexivity|].
  unfold verify_password, hash_password.
  apply String.eqb_eq.
Qed.

Lemma hash_password_is_plaintext_witness :
  "abcde" = "abcde" /\ verify_password (hash_password "abcde") "abcde" = true.
Proof.
  split; [reflexivity|].
  apply (proj2 (hash_password_is_plaintext "abcde" "abcde")). reflexivity.
Defined.

(** ** Coin policy *)

Section CoinPolicy.

Local Open Scope Z_scope.

Lemma total_app (l1 l2 : list Z) : total (l1 ++ l2) = total l1 + total l2.
Proof.
  induction l1 as [|c l1 IH]; simpl; [reflexivity|].
  rewrite IH. lia.
Qed.

Lemma total_repeat (c : Z) (k : nat) : total (repeat c k) = c * Z.of_nat k.
Proof.
  induction k as [|k IH]; [simpl; lia|].
  cbn [repeat total fold_right]. fold (total (repeat c k)).
  rewrite IH. lia.
Qed.

(** With nothing left to pay the loop body does nothing, and so does the
    greedy step; above zero they take the same coins. *)
Lemma fold_change_step (coins : list Z) :
  Forall (fun c => 0 < c) coins ->
  forall (change : list Z) (amount : Z),
    0 <= amount ->
    fold_left change_step coins (change, amount)
    = (change ++ greedy coins amount, leftover coins amount).
Proof.
  induction 1 as [|c coins Hc _ IH]; intros change amount Ha.
  - simpl. now rewrite app_nil_r.
  - cbn [fold_left greedy leftover]. unfold change_step at 2.
    assert (Hmod : amount - c * (amount / c) = amount mod c)
      by (rewrite Z.mod_eq; lia).
    destruct (amount >? 0) eqn:Hpos.
    + rewrite IH by (rewrite Hmod; apply Z.mod_pos_bound; lia).
      now rewrite <- app_assoc, Hmod.
    + assert (amount = 0) by lia. subst amount.
      rewrite IH by lia.
      rewrite Z.div_0_l, Z.mod_0_l by lia.
      now rewrite Z.mul_0_r.
Qed.

Lemma total_greedy (coins : list Z) :
  Forall (fun c => 0 < c) coins ->
  forall amount, 0 <= amount ->
    total (greedy coins amount) = amount - leftover coins amount.
Proof.
  induction 1 as [|c coins Hc _ IH]; intros amount Ha.
  - simpl. lia.
  - cbn [greedy leftover].
    assert (Hmod : amount - c * (amount / c) = amount mod c)
      by (rewrite Z.mod_eq; lia).
    rewrite total_app, total_repeat, Hmod.
    rewrite IH by (apply Z.mod_pos_bound; lia).
    rewrite Z2Nat.id by (apply Z.div_pos; lia).
    lia.
Qed.

Lemma coins_positive : Forall (fun c => 0 < c) [100; 50; 20; 10; 5].
Proof. repeat constructor. Qed.

(** Every coin is a multiple of 5, so what is left is [n mod 5]. *)
Lemma leftover_coins (n : Z) : leftover [100; 50; 20; 10; 5] n = n mod 5.
Proof.
  cbn [leftover].
  rewrite (Z.mod_mod_divide _ 10 5) by (exists 2; reflexivity).
  rewrite (Z.mod_mod_divide _ 20 5) by (exists 4; reflexivity).
  rewrite (Z.mod_mod_divide _ 50 5) by (exists 10; reflexivity).
  rewrite (Z.mod_mod_divide _ 100 5) by (exists 20; reflexivity).
  reflexivity.
Qed.

Lemma make_change_greedy (n : Z) : 0 <= n -> make_change n = makeChange_spec n.
Proof.
  intros Hn. unfold make_change, makeChange_spec.
  now rewrite (fold_change_step _ coins_positive [] n Hn).
Qed.

End CoinPolicy.

(** C5 (amended): [make_change] is the greedy algorithm over 100, 50, 20, 10,
    5; [make_change 0 = []] and [make_change 65 = [50; 10; 5]]; for every
    non-negative [n] the coins sum to [n - n mod 5], hence to [n] exactly
    when [n] is a multiple of 5. *)
Theorem make_change_sum (n : Z) :
  (0 <= n)%Z ->
  make_change n = makeChange_spec n
  /\ total (make_change n) = (n - n mod 5)%Z
  /\ (total (make_change n) = n <-> n mod 5 = 0)%Z
  /\ make_change 0 = []
  /\ make_change 65 = [50; 10; 5]%Z.
Proof.
  intros Hn.
  assert (Hsum : total (make_change n) = (n - n mod 5)%Z).
  { rewrite make_change_greedy by assumption. unfold makeChange_spec.
    rewrite (total_greedy _ coins_positive n Hn).
    now rewrite leftover_coins. }
  repeat split; try assumption; try reflexivity.
  - apply make_change_greedy; assumption.
  - rewrite Hsum. lia.
  - rewrite Hsum. lia.
Qed.

Lemma make_change_sum_witness :
  (0 <= 65)%Z
  /\ total (make_change 65) = (65 - 65 mod 5)%Z.
Proof.
  split; [lia|].
  exact (proj1 (proj2 (make_change_sum 65 ltac:(lia)))).
Defined.

(** With 3 left on the account no coin fits: the change is empty. *)
Lemma make_change_sum_counterexample :
  (0 <= 3)%Z /\ total (make_change 3) <> 3%Z.
Proof.
  split; [lia|].
  vm_compute. discriminate.
Qed.

(** ** Rows and files *)

Section Rows.

Lemma has_username_eq (u : string) (r : UserRow) :
  has_username u r = true <-> username r = u.
Proof. apply String.eqb_eq. Qed.

Lemma has_productId_eq (v : string) (r : ProductRow) :
  has_productId v r = true <-> productId r = v.
Proof. apply String.eqb_eq. Qed.

Lemma filter_head {A} (p : A -> bool) (l : list A) (x : A) (rest : list A) :
  filter p l = x :: rest -> p x = true.
Proof.
  intros H.
  assert (Hin : In x (filter p l)) by (rewrite H; now left).
  apply filter_In in Hin. tauto.
Qed.

Lemma set_user_db_same (w : world) (rows : list UserRow) :
  user_db w = Table rows -> set_user_db (Table rows) w = w.
Proof. destruct w; simpl; intros ->; reflexivity. Qed.

Lemma set_product_db_same (w : world) (rows : list ProductRow) :
  product_db w = Table rows -> set_product_db (Table rows) w = w.
Proof. destruct w; simpl; intros ->; reflexivity. Qed.

Lemma filter_update_deposit (u : string) (f : Z -> Z) (rows : list UserRow) :
  filter (has_username u) (update_deposit u f rows)
  = map (fun r => set_deposit (f (deposit r)) r) (filter (has_username u) rows).
Proof.
  induction rows as [|r rows IH]; [reflexivity|].
  cbn [update_deposit map filter]. fold (update_deposit u f rows).
  destruct (has_username u r) eqn:Hr.
  - replace (has_username u (set_deposit (f (deposit r)) r)) with true
      by (symmetry; exact Hr).
    cbn [map]. now rewrite IH.
  - rewrite Hr. exact IH.
Qed.

Lemma map_id_update_deposit (u : string) (f : Z -> Z) (rows : list UserRow) :
  map id (update_deposit u f rows) = map id rows.
Proof.
  unfold update_deposit. rewrite map_map.
  apply map_ext. intros r. now destruct (has_username u r).
Qed.

Lemma user_errors_valid (r : UserRow) :
  user_errors r = [] -> (0 <= deposit r)%Z.
Proof.
  unfold user_errors, validator.
  destruct (String.eqb (id r) ""), (String.eqb (username r) ""),
    (String.eqb (password r) ""); try discriminate.
  destruct (deposit r <? 0)%Z eqn:Hd; [discriminate|]. lia.
Qed.

Lemma user_errors_set_deposit (r : UserRow) (v : Z) :
  user_errors r = [] -> (0 <= v)%Z -> user_errors (set_deposit v r) = [].
Proof.
  unfold user_errors, validator. cbn [set_deposit id username password deposit].
  destruct (String.eqb (id r) ""), (String.eqb (username r) ""),
    (String.eqb (password r) ""); try discriminate.
  intros _ Hv. destruct (Z.ltb_spec v 0); [lia|reflexivity].
Qed.

Lemma user_errors_overdrawn (r : UserRow) :
  (deposit r < 0)%Z -> user_errors r <> [].
Proof.
  intros Hd He. apply user_errors_valid in He. lia.
Qed.

End Rows.

(** ** Read-only computations *)

Create HintDb read_only_db.

Section ReadOnly.

Context {A B : Type}.

Lemma read_only_ret (a : A) : read_only (ret a).
Proof. intros w; reflexivity. Qed.

Lemma read_only_raise (e : exn) : read_only (@raise A e).
Proof. intros w; reflexivity. Qed.

Lemma read_only_raise_new (k : kind) (msg : string) :
  read_only (@raise_new A k msg).
Proof. intros w; reflexivity. Qed.

Lemma read_only_raise_from (k : kind) (msg : string) (e : exn) :
  read_only (@raise_from A k msg e).
Proof. intros w; reflexivity. Qed.

Lemma read_only_bind (m : M A) (k : A -> M B) :
  read_only m -> (forall a, read_only (k a)) -> read_only (bind m k).
Proof.
  intros Hm Hk w. unfold bind. specialize (Hm w).
  destruct (m w) as [w' [a|e]]; cbn [fst] in Hm; subst w'.
  - apply Hk.
  - reflexivity.
Qed.

Lemma read_only_try_except (m : M A) (h : exn -> M A) :
  read_only m -> (forall e, read_only (h e)) -> read_only (try_except m h).
Proof.
  intros Hm Hh w. unfold try_except. specialize (Hm w).
  destruct (m w) as [w' [a|e]]; cbn [fst] in Hm; subst w'.
  - reflexivity.
  - apply Hh.
Qed.

Lemma read_only_read_csv (file : world -> csv A) : read_only (read_csv file).
Proof. intros w. unfold read_csv. now destruct (file w). Qed.

Lemma read_only_first_row (df : list A) : read_only (first_row df).
Proof. intros w. now destruct df. Qed.

Lemma read_only_local (name : string) (v : option A) : read_only (local name v).
Proof. intros w. now destruct v. Qed.

Lemma read_only_validated (errors : list string) (a : A) :
  read_only (validated errors a).
Proof. intros w. now destruct errors. Qed.

Lemma read_only_if (c : bool) (m1 m2 : M A) :
  read_only m1 -> read_only m2 -> read_only (if c then m1 else m2).
Proof. now destruct c. Qed.

End ReadOnly.

#[local] Hint Resolve read_only_ret read_only_raise read_only_raise_new
  read_only_raise_from read_only_read_csv read_only_first_row read_only_local
  read_only_validated : read_only_db.

Ltac read_only_tac :=
  repeat first
    [ apply read_only_bind; [|intros ?]
    | apply read_only_try_except; [|intros ?]
    | apply read_only_if
    | solve [auto with read_only_db] ].

(** ** The account store *)

Ltac run :=
  unfold first_row, local, validated, write_users, write_products,
    interleave, read_csv, raise_new, raise_from, raise, ret, bind, try_except,
    isinstance;
  cbn [fst snd kind_of kind_beq negb map].

Section AccountStore.

Variables (w : world) (u : string).
Variables (rows : list UserRow) (usr : UserRow) (rest : list UserRow).
Hypothesis users : user_db w = Table rows.
Hypothesis found : filter (has_username u) rows = usr :: rest.

Lemma found_username : username usr = u.
Proof. apply has_username_eq. exact (filter_head _ _ _ _ found). Qed.

Lemma get_user_found :
  user_errors usr = [] -> get_user (Some u) None w = (w, Ok usr).
Proof.
  intros Hv. unfold get_user, UserModel. run.
  rewrite users. run. rewrite found. run. now rewrite Hv.
Qed.

Lemma deposit_amount_zero :
  role usr = UserEnum.BUYER -> user_errors usr = [] ->
  deposit_amount u 0 w = (w, Ok usr).
Proof.
  intros Hr Hv. unfold deposit_amount, UserModel. run.
  rewrite users. run. rewrite found. run. rewrite Hr. cbn.
  rewrite found. rewrite Hv. now rewrite (set_user_db_same _ _ users).
Qed.

Lemma deposit_amount_coin (coin : Z) :
  role usr = UserEnum.BUYER -> user_errors usr = [] ->
  allowed_coin coin = true ->
  deposit_amount u coin w
  = (set_user_db (Table (update_deposit u (fun d => d + coin)%Z rows)) w,
     Ok (set_deposit (deposit usr + coin) usr)).
Proof.
  intros Hr Hv Hc. unfold deposit_amount, UserModel. run.
  rewrite users. run. rewrite found. run. rewrite Hr. cbn [String.eqb Ascii.eqb Bool.eqb].
  assert (Hpos : (0 < coin)%Z).
  { unfold allowed_coin in Hc. cbn in Hc.
    repeat (apply orb_true_iff in Hc; destruct Hc as [Hc|Hc]);
      try apply Z.eqb_eq in Hc; try lia; discriminate. }
  replace (coin =? 0)%Z with false by (symmetry; apply Z.eqb_neq; lia).
  rewrite Hc. cbn [negb fst snd].
  rewrite filter_update_deposit, found. cbn [map].
  rewrite user_errors_set_deposit;
    [reflexivity | assumption | apply user_errors_valid in Hv; lia].
Qed.

Lemma deposit_amount_rejected (coin : Z) :
  role usr = UserEnum.BUYER -> coin <> 0%Z -> allowed_coin coin = false ->
  deposit_amount u coin w
  = (w, Err (ExnFrom UserNotUpdatedException
               "Amount could not be deposited into User account"
               (Exn NonAllowedDepositException
                  ("deposit of " ++ decimal coin ++ " coin is not allowed")%string))).
Proof.
  intros Hr Hz Hc. unfold deposit_amount. run.
  rewrite users. run. rewrite found. run. rewrite Hr. cbn [String.eqb Ascii.eqb Bool.eqb].
  replace (coin =? 0)%Z with false by (symmetry; apply Z.eqb_neq; lia).
  rewrite Hc. reflexivity.
Qed.

Lemma deposit_amount_not_buyer (coin : Z) :
  role usr <> UserEnum.BUYER ->
  deposit_amount u coin w
  = (w, Err (ExnFrom UserNotUpdatedException
               "Amount could not be deposited into User account"
               (Exn UserNotBuyerException
                  "User deposit cannot be updated. User is not a buyer"))).
Proof.
  intros Hr. apply String.eqb_neq in Hr.
  unfold deposit_amount. run.
  rewrite users. run. rewrite found. run. now rewrite Hr.
Qed.

Lemma deduct_amount_ok (amount : Z) :
  role usr = UserEnum.BUYER -> user_errors usr = [] ->
  amount <> 0%Z -> (amount <= deposit usr)%Z ->
  deduct_amount u amount w
  = (set_user_db (Table (update_deposit u (fun d => d - amount)%Z rows)) w,
     Ok (set_deposit (deposit usr - amount) usr)).
Proof.
  intros Hr Hv Hz Hle. unfold deduct_amount, UserModel. run.
  rewrite users. run. rewrite found. run. rewrite Hr. cbn [String.eqb Ascii.eqb Bool.eqb].
  replace (amount =? 0)%Z with false by (symmetry; apply Z.eqb_neq; lia).
  cbn [negb fst snd].
  rewrite filter_update_deposit, found. cbn [map].
  rewrite user_errors_set_deposit; [reflexivity | assumption | lia].
Qed.

(** Taking more than the account holds: the negative balance is written to
    the file first, and only then does [UserModel] refuse the row. *)
Lemma deduct_amount_overdraws (amount : Z) :
  role usr = UserEnum.BUYER -> user_errors usr = [] ->
  (deposit usr < amount)%Z ->
  deduct_amount u amount w
  = (set_user_db (Table (update_deposit u (fun d => d - amount)%Z rows)) w,
     Err (ExnFrom UserNotUpdatedException
            "Amount could not be deducted from User account"
            (Exn ValidationError "deposit must be greater than 0"))).
Proof.
  intros Hr Hv Hlt. pose proof (user_errors_valid _ Hv) as Hd.
  unfold deduct_amount, UserModel. run.
  rewrite users. run. rewrite found. run. rewrite Hr. cbn [String.eqb Ascii.eqb Bool.eqb].
  replace (amount =? 0)%Z with false by (symmetry; apply Z.eqb_neq; lia).
  cbn [negb fst snd].
  rewrite filter_update_deposit, found. cbn [map].
  revert Hv. unfold user_errors, validator.
  cbn [set_deposit id username password deposit].
  destruct (String.eqb (id usr) ""), (String.eqb (username usr) ""),
    (String.eqb (password usr) ""); try discriminate.
  intros _. destruct (Z.ltb_spec (deposit usr - amount) 0); [reflexivity|lia].
Qed.

End AccountStore.

Section AccountStoreAnyFile.

Lemma get_user_inv (u : string) (w w' : world) (usr : UserRow) :
  get_user (Some u) None w = (w', Ok usr) ->
  w' = w
  /\ exists rows rest,
       user_db w = Table rows
       /\ filter (has_username u) rows = usr :: rest
       /\ user_errors usr = [].
Proof.
  unfold get_user, UserModel. run.
  destruct (user_db w) as [|rows] eqn:Hdb; run; [discriminate|].
  destruct (filter (has_username u) rows) as [|r rest] eqn:Hf; run;
    [discriminate|].
  destruct (user_errors r) eqn:He; run; [|discriminate].
  intros H; inversion H; subst. split; [reflexivity|].
  exists rows, rest. auto.
Qed.

Lemma get_user_pure (a b : option string) : read_only (get_user a b).
Proof.
  unfold get_user, UserModel. read_only_tac.
Qed.

(** Deducting nothing reads [user_df] before any branch has assigned it:
    the call raises and writes nothing. *)
Lemma deduct_amount_zero (u : string) (w : world) :
  exists e, deduct_amount u 0 w = (w, Err e).
Proof.
  unfold deduct_amount. run.
  destruct (user_db w) as [|rows]; run; [eauto|].
  destruct (filter (has_username u) rows) as [|r rest]; run; [eauto|].
  destruct (String.eqb (role r) UserEnum.BUYER); cbn; eauto.
Qed.

(** Depositing nothing rewrites the file with the rows just read. *)
Lemma deposit_amount_zero_world (u : string) (w : world) :
  fst (deposit_amount u 0 w) = w.
Proof.
  unfold deposit_amount, UserModel. run.
  destruct (user_db w) as [|rows] eqn:Hdb; run; [reflexivity|].
  destruct (filter (has_username u) rows) as [|r rest] eqn:Hf; run;
    [reflexivity|].
  destruct (String.eqb (role r) UserEnum.BUYER); run; [|reflexivity].
  cbn. rewrite Hf. rewrite (set_user_db_same _ _ Hdb).
  now destruct (user_errors r).
Qed.

End AccountStoreAnyFile.

(** ** The catalog store *)

Section CatalogStore.

Lemma sellerId_validators_pure (v : string) :
  read_only (sellerId_validators v).
Proof.
  unfold sellerId_validators. read_only_tac.
Qed.

(** The seller check looks at the ids of the user table and nothing else. *)
Lemma sellerId_validators_ids (v : string) (w1 w2 : world) :
  user_ids (user_db w1) = user_ids (user_db w2) ->
  snd (sellerId_validators v w1) = snd (sellerId_validators v w2).
Proof.
  intros H. unfold sellerId_validators.
  destruct (String.eqb v ""); run; [reflexivity|].
  destruct (user_db w1) as [|rows1], (user_db w2) as [|rows2]; run;
    try discriminate; [reflexivity|].
  cbn [user_ids] in H. inversion H as [Hids].
  now destruct (existsb (String.eqb v) (map id rows1)).
Qed.

Lemma ProductModel_pure (data : ProductRow) : read_only (ProductModel data).
Proof.
  unfold ProductModel. read_only_tac.
Qed.

Lemma ProductModel_ok (data : ProductRow) (w : world) :
  field_errors data = [] ->
  snd (sellerId_validators (sellerId data) w) = Ok [] ->
  ProductModel data w = (w, Ok data).
Proof.
  intros Hf Hs. unfold ProductModel. run.
  pose proof (sellerId_validators_pure (sellerId data) w) as Hw.
  destruct (sellerId_validators (sellerId data) w) as [w' r];
    cbn [fst snd] in Hw, Hs; subst w' r.
  now rewrite Hf.
Qed.

Lemma ProductModel_inv (data p : ProductRow) (w w' : world) :
  ProductModel data w = (w', Ok p) ->
  w' = w /\ p = data /\ field_errors data = []
  /\ snd (sellerId_validators (sellerId data) w) = Ok [].
Proof.
  unfold ProductModel. run.
  pose proof (sellerId_validators_pure (sellerId data) w) as Hw.
  destruct (sellerId_validators (sellerId data) w) as [w1 [es|e]];
    cbn [fst snd] in Hw |- *; subst w1; [|discriminate].
  destruct (field_errors data) as [|m ms] eqn:Hf; cbn [app].
  - destruct es; [|discriminate]. intros H; inversion H; subst. auto.
  - discriminate.
Qed.

Lemma field_errors_valid (p : ProductRow) :
  field_errors p = [] -> (0 <= amountAvailable p)%Z.
Proof.
  unfold field_errors, cost_validators, validator.
  destruct (String.eqb (productId p) ""), (String.eqb (productName p) "");
    try discriminate.
  destruct (negb (cost p mod 5 =? 0)%Z); try discriminate.
  destruct (cost p <? 0)%Z; try discriminate.
  destruct (Z.ltb_spec (amountAvailable p) 0); [discriminate|]. lia.
Qed.

Lemma field_errors_cost (p : ProductRow) :
  field_errors p = [] -> (0 <= cost p)%Z.
Proof.
  unfold field_errors, cost_validators, validator.
  destruct (String.eqb (productId p) ""), (String.eqb (productName p) "");
    try discriminate.
  destruct (negb (cost p mod 5 =? 0)%Z); try discriminate.
  destruct (Z.ltb_spec (cost p) 0); [discriminate|]. lia.
Qed.

Lemma field_errors_set_amountAvailable (p : ProductRow) (v : Z) :
  field_errors p = [] -> (0 <= v)%Z ->
  field_errors (set_amountAvailable v p) = [].
Proof.
  unfold field_errors, cost_validators, validator.
  cbn [set_amountAvailable productId productName cost amountAvailable].
  destruct (String.eqb (productId p) ""), (String.eqb (productName p) "");
    try discriminate.
  destruct (negb (cost p mod 5 =? 0)%Z); try discriminate.
  destruct (cost p <? 0)%Z; try discriminate.
  intros _ Hv. destruct (Z.ltb_spec v 0); [lia|reflexivity].
Qed.

Lemma filter_take (v : string) (n : Z) (rows : list ProductRow) :
  filter (has_productId v) (decrement_amount v n rows)
  = map (fun r => set_amountAvailable (amountAvailable r - n) r)
      (filter (has_productId v) rows).
Proof.
  induction rows as [|r rows IH]; [reflexivity|].
  cbn [decrement_amount map filter]. fold (decrement_amount v n rows).
  destruct (has_productId v r) eqn:Hr.
  - replace (has_productId v (set_amountAvailable (amountAvailable r - n) r))
      with true by (symmetry; exact Hr).
    cbn [map]. now rewrite IH.
  - rewrite Hr. exact IH.
Qed.

Lemma get_product_inv (v : string) (w w' : world) (p : ProductRow) :
  get_product (Some v) None w = (w', Ok p) ->
  w' = w
  /\ exists rows rest,
       product_db w = Table rows
       /\ filter (has_productId v) rows = p :: rest
       /\ field_errors p = []
       /\ snd (sellerId_validators (sellerId p) w) = Ok [].
Proof.
  unfold get_product. run.
  destruct (product_db w) as [|rows] eqn:Hdb; run; [discriminate|].
  destruct (filter (has_productId v) rows) as [|r rest] eqn:Hf; run;
    [discriminate|].
  destruct (ProductModel r w) as [w1 [p1|e]] eqn:Hm.
  - apply ProductModel_inv in Hm. destruct Hm as (-> & -> & He & Hs).
    intros H; inversion H; subst. split; [reflexivity|].
    exists rows, rest. auto.
  - destruct (kind_beq (kind_of e) IndexError); discriminate.
Qed.

Lemma get_product_pure (a b : option string) : read_only (get_product a b).
Proof.
  unfold get_product. read_only_tac;
    try (destruct a; [|destruct b]; auto with read_only_db).
Qed.

End CatalogStore.

Section CatalogStoreRow.

Variables (w : world) (v : string).
Variables (rows : list ProductRow) (p : ProductRow) (rest : list ProductRow).
Hypothesis products : product_db w = Table rows.
Hypothesis found : filter (has_productId v) rows = p :: rest.

Lemma found_productId : productId p = v.
Proof. apply has_productId_eq. exact (filter_head _ _ _ _ found). Qed.

Lemma get_product_found :
  field_errors p = [] ->
  snd (sellerId_validators (sellerId p) w) = Ok [] ->
  get_product (Some v) None w = (w, Ok p).
Proof.
  intros Hf Hs. unfold get_product. run.
  rewrite products. run. rewrite found. run.
  now rewrite (ProductModel_ok _ _ Hf Hs).
Qed.

Lemma take_product_ok (n : Z) :
  field_errors p = [] ->
  snd (sellerId_validators (sellerId p) w) = Ok [] ->
  (n <= amountAvailable p)%Z ->
  take_product v n w
  = (set_product_db (Table (decrement_amount v n rows)) w,
     Ok (set_amountAvailable (amountAvailable p - n) p)).
Proof.
  intros Hf Hs Hn. unfold take_product. run.
  rewrite products. run. rewrite found. run.
  destruct (Z.ltb_spec (amountAvailable p) n); [lia|].
  cbn [fst snd].
  rewrite filter_take, found. cbn [map].
  rewrite ProductModel_ok; [reflexivity | |].
  - apply field_errors_set_amountAvailable; [assumption|lia].
  - cbn [set_amountAvailable sellerId]. rewrite <- Hs.
    apply sellerId_validators_ids. reflexivity.
Qed.

Lemma take_product_unavailable (n : Z) :
  (amountAvailable p < n)%Z ->
  take_product v n w
  = (w, Err (ExnFrom ProductNotUpdatedException
               "Product could not be taken from Vending Machine"
               (Exn PurchaseException "Purchase amount not available"))).
Proof.
  intros Hn. unfold take_product. run.
  rewrite products. run. rewrite found. run.
  destruct (Z.ltb_spec (amountAvailable p) n); [reflexivity|lia].
Qed.

End CatalogStoreRow.

(** ** The purchase protocol *)

Section Purchase.

Variable others : world -> world.
Variables (w : world) (u v : string) (n : Z).

(** Both lookups leave the files alone, whatever they return. *)
Lemma try_get_user :
  exists r,
    try_except (get_user (Some u) None)
      (fun e => if isinstance e UserNotFoundException
                then raise_from UserNotFoundException "User does not exist" e
                else raise e) w = (w, r)
    /\ forall usr, r = Ok usr -> get_user (Some u) None w = (w, Ok usr).
Proof.
  unfold try_except.
  pose proof (get_user_pure (Some u) None w) as Hw.
  destruct (get_user (Some u) None w) as [w' [usr|e]]; cbn [fst] in Hw; subst w'.
  - eexists; split; [reflexivity|]. now intros usr' [= ->].
  - destruct (isinstance e UserNotFoundException);
      (eexists; split; [reflexivity|discriminate]).
Qed.

Lemma try_get_product :
  exists r,
    try_except (get_product (Some v) None)
      (fun e => if isinstance e ProductNotFoundException
                then raise_from ProductNotFoundException "Product not found" e
                else raise e) w = (w, r)
    /\ forall p, r = Ok p -> get_product (Some v) None w = (w, Ok p).
Proof.
  unfold try_except.
  pose proof (get_product_pure (Some v) None w) as Hw.
  destruct (get_product (Some v) None w) as [w' [p|e]]; cbn [fst] in Hw; subst w'.
  - eexists; split; [reflexivity|]. now intros p' [= ->].
  - destruct (isinstance e ProductNotFoundException);
      (eexists; split; [reflexivity|discriminate]).
Qed.

Variables (usr : UserRow) (p : ProductRow).
Hypothesis buyer : get_user (Some u) None w = (w, Ok usr).

(** Step 3 of the protocol. *)
Lemma buy_product_zero_deposit :
  role usr <> UserEnum.SELLER -> deposit usr = 0%Z ->
  buy_product_racing others u v n w
  = (w, Err (Exn ZeroDepositException "User cannot buy without deposit")).
Proof.
  intros Hr Hd. apply String.eqb_neq in Hr.
  unfold buy_product_racing, bind, try_except.
  rewrite buyer, Hr, Hd. reflexivity.
Qed.

Hypothesis not_seller : role usr <> UserEnum.SELLER.
Hypothesis funded : deposit usr <> 0%Z.
Hypothesis item : get_product (Some v) None w = (w, Ok p).

(** Steps 5 to 7: with the buyer and the product resolved, the call is the
    stock check, the funds check and the commit phase. *)
Lemma buy_product_checks :
  buy_product_racing others u v n w
  = if (amountAvailable p <? n)%Z
    then (w, Err (Exn ProductAmountUnavailableException
                    "Requested amount of product is not available"))
    else if (deposit usr <? cost p * n)%Z
    then (w, Err (Exn PurchaseException "User has exceeded deposit amount"))
    else commit_purchase others usr p n w.
Proof.
  apply String.eqb_neq in not_seller. apply Z.eqb_neq in funded.
  unfold buy_product_racing, bind, try_except.
  rewrite buyer, not_seller, funded, item.
  destruct (amountAvailable p <? n)%Z; [reflexivity|].
  now destruct (deposit usr <? cost p * n)%Z.
Qed.

End Purchase.

Section Commit.

Variable others : world -> world.
Variables (w : world) (n : Z) (usr : UserRow) (p : ProductRow).

(** Nothing to pay: [deduct_amount] raises before it writes, the handler
    deposits nothing, and the purchase is reported as failed. *)
Lemma commit_purchase_nothing_to_pay :
  (cost p * n = 0)%Z ->
  exists e, commit_purchase others usr p n w = (w, Err e).
Proof.
  intros Hz. unfold commit_purchase, try_except, bind. rewrite Hz.
  destruct (deduct_amount_zero (username usr) w) as [e ->].
  pose proof (deposit_amount_zero_world (username usr) w) as Hw.
  destruct (deposit_amount (username usr) 0 w) as [w' [r|e']];
    cbn [fst] in Hw; subst w'; run; eauto.
Qed.

Variables (urows urest : list UserRow) (prows prest : list ProductRow).
Hypothesis users : user_db w = Table urows.
Hypothesis ufound : filter (has_username (username usr)) urows = usr :: urest.
Hypothesis uvalid : user_errors usr = [].
Hypothesis products : product_db w = Table prows.
Hypothesis pfound : filter (has_productId (productId p)) prows = p :: prest.
Hypothesis pvalid : field_errors p = [].
Hypothesis seller : snd (sellerId_validators (sellerId p) w) = Ok [].

Lemma commit_purchase_ok :
  role usr = UserEnum.BUYER ->
  (cost p * n <> 0)%Z -> (cost p * n <= deposit usr)%Z ->
  (n <= amountAvailable p)%Z ->
  commit_purchase (fun w => w) usr p n w
  = (set_product_db (Table (decremented p n prows))
       (set_user_db (Table (debited usr p n urows)) w),
     Ok ((cost p * n)%Z,
         set_amountAvailable (amountAvailable p - n) p,
         make_change (deposit usr - cost p * n))).
Proof.
  intros Hr Hz Hfunds Hstock.
  unfold commit_purchase, try_except, bind.
  rewrite (deduct_amount_ok w _ urows usr urest users ufound _ Hr uvalid Hz Hfunds).
  unfold interleave at 1. fold (debited usr p n urows). cbv beta iota.
  rewrite (take_product_ok (set_user_db (Table (debited usr p n urows)) w)
             (productId p) prows p prest products pfound n pvalid);
    [reflexivity | | exact Hstock].
  rewrite <- seller. apply sellerId_validators_ids.
  cbn [set_user_db user_db user_ids]. rewrite users. cbn [user_ids].
  unfold debited. now rewrite map_id_update_deposit.
Qed.

(** After the purchase the two lookups return the updated rows. *)
Lemma after_purchase_user :
  (cost p * n <= deposit usr)%Z ->
  get_user (Some (username usr)) None
    (set_product_db (Table (decremented p n prows))
       (set_user_db (Table (debited usr p n urows)) w))
  = (set_product_db (Table (decremented p n prows))
       (set_user_db (Table (debited usr p n urows)) w),
     Ok (set_deposit (deposit usr - cost p * n) usr)).
Proof.
  intros Hfunds.
  apply get_user_found
    with (rows := debited usr p n urows)
         (rest := map (fun r => set_deposit (deposit r - cost p * n) r) urest).
  - reflexivity.
  - unfold debited. now rewrite filter_update_deposit, ufound.
  - apply user_errors_set_deposit; [assumption|lia].
Qed.

Lemma after_purchase_product :
  (n <= amountAvailable p)%Z ->
  get_product (Some (productId p)) None
    (set_product_db (Table (decremented p n prows))
       (set_user_db (Table (debited usr p n urows)) w))
  = (set_product_db (Table (decremented p n prows))
       (set_user_db (Table (debited usr p n urows)) w),
     Ok (set_amountAvailable (amountAvailable p - n) p)).
Proof.
  intros Hstock.
  apply get_product_found
    with (rows := decremented p n prows)
         (rest := map (fun r => set_amountAvailable (amountAvailable r - n) r) prest).
  - reflexivity.
  - unfold decremented.
    now rewrite filter_take, pfound.
  - apply field_errors_set_amountAvailable;
      [assumption | apply field_errors_valid in pvalid; lia].
  - cbn [set_amountAvailable sellerId]. rewrite <- seller.
    apply sellerId_validators_ids.
    cbn [set_product_db set_user_db user_db user_ids]. rewrite users.
    cbn [user_ids]. unfold debited. now rewrite map_id_update_deposit.
Qed.

End Commit.

Section PurchaseOutcome.

Variables (w : world) (u v : string) (n : Z) (usr : UserRow) (p : ProductRow).
Hypothesis buyer : get_user (Some u) None w = (w, Ok usr).
Hypothesis is_buyer : role usr = UserEnum.BUYER.
Hypothesis item : get_product (Some v) None w = (w, Ok p).

Lemma buyer_not_seller : role usr <> UserEnum.SELLER.
Proof. rewrite is_buyer. discriminate. Qed.

(** A purchase that passes the checks and has something to pay goes
    through: the deposit is debited, the stock decremented, and the next
    lookups see both. *)
Lemma buy_product_succeeds :
  deposit usr <> 0%Z ->
  (n <= amountAvailable p)%Z -> (cost p * n <= deposit usr)%Z ->
  (cost p * n <> 0)%Z ->
  exists w',
    buy_product u v n w
    = (w', Ok ((cost p * n)%Z,
               set_amountAvailable (amountAvailable p - n) p,
               make_change (deposit usr - cost p * n)))
    /\ get_user (Some u) None w'
       = (w', Ok (set_deposit (deposit usr - cost p * n) usr))
    /\ get_product (Some v) None w'
       = (w', Ok (set_amountAvailable (amountAvailable p - n) p)).
Proof.
  intros Hd Hstock Hfunds Hz.
  destruct (get_user_inv _ _ _ _ buyer) as (_ & urows & urest & Hu & Huf & Huv).
  destruct (get_product_inv _ _ _ _ item) as (_ & prows & prest & Hp & Hpf & Hpv & Hs).
  pose proof (found_username _ _ _ _ Huf) as Hname.
  pose proof (found_productId _ _ _ _ Hpf) as Hid.
  unfold buy_product.
  rewrite (buy_product_checks _ w u v n usr p buyer buyer_not_seller Hd item).
  destruct (Z.ltb_spec (amountAvailable p) n); [lia|].
  destruct (Z.ltb_spec (deposit usr) (cost p * n)); [lia|].
  subst u v.
  rewrite (commit_purchase_ok w n usr p urows urest prows prest
             Hu Huf Huv Hp Hpf Hpv Hs is_buyer Hz Hfunds Hstock).
  eexists; split; [reflexivity|]. split.
  - exact (after_purchase_user w n usr p urows urest prows Huf Huv Hfunds).
  - exact (after_purchase_product w n usr p urows prows prest Hu Hpf Hpv Hs Hstock).
Qed.

(** The change of such a purchase is the greedy change of the
    specification. *)
Lemma buy_product_returns :
  deposit usr <> 0%Z ->
  (n <= amountAvailable p)%Z -> (cost p * n <= deposit usr)%Z ->
  (cost p * n <> 0)%Z ->
  exists w',
    buy_product u v n w
    = (w', Ok ((cost p * n)%Z,
               set_amountAvailable (amountAvailable p - n) p,
               makeChange_spec (deposit usr - cost p * n)))
    /\ get_user (Some u) None w'
       = (w', Ok (set_deposit (deposit usr - cost p * n) usr))
    /\ get_product (Some v) None w'
       = (w', Ok (set_amountAvailable (amountAvailable p - n) p)).
Proof.
  intros Hd Hstock Hfunds Hz.
  rewrite <- (make_change_greedy (deposit usr - cost p * n)) by lia.
  now apply buy_product_succeeds.
Qed.

(** With nothing to pay (a free product, or no unit asked for) the checks
    pass and the commit phase fails. *)
Lemma buy_product_nothing_to_pay :
  deposit usr <> 0%Z -> (cost p * n = 0)%Z ->
  exists e, buy_product u v n w = (w, Err e).
Proof.
  intros Hd Hz. unfold buy_product.
  rewrite (buy_product_checks _ w u v n usr p buyer buyer_not_seller Hd item).
  destruct (amountAvailable p <? n)%Z; [eauto|].
  destruct (deposit usr <? cost p * n)%Z; [eauto|].
  now apply commit_purchase_nothing_to_pay.
Qed.

End PurchaseOutcome.




(** C7: a purchase by an existing buyer whose deposit is exactly 0 fails
    with [ZeroDepositException], whatever the product, its cost, its stock
    and the quantity asked for, and whatever other processes do; nothing is
    written. *)
Theorem zero_deposit_guard (others : world -> world) (w : world)
    (u v : string) (n : Z) (usr : UserRow) :
  get_user (Some u) None w = (w, Ok usr) ->
  role usr = UserEnum.BUYER ->
  deposit usr = 0%Z ->
  buy_product_racing others u v n w
  = (w, Err (Exn ZeroDepositException "User cannot buy without deposit")).
Proof.
  intros Hu Hr Hd.
  apply (buy_product_zero_deposit others w u v n usr Hu); [|exact Hd].
  rewrite Hr. discriminate.
Qed.

Lemma zero_deposit_guard_witness :
  buy_product_racing (fun w => w) "Johny" "no such product" 1 (vending 0 5 500)
  = (vending 0 5 500,
     Err (Exn ZeroDepositException "User cannot buy without deposit")).
Proof.
  apply (zero_deposit_guard (fun w => w) (vending 0 5 500) "Johny"
           "no such product" 1 (Johny 0)).
  - reflexivity.
  - reflexivity.
  - reflexivity.
Defined.

(** C6: with the buyer and the product resolved and the deposit not zero, a
    purchase of more units than [amountAvailable] fails with
    [ProductAmountUnavailableException], and one the deposit does not cover
    fails with [PurchaseException]; in both cases the two files are left
    exactly as they were. *)
Theorem validation_failures_write_nothing (others : world -> world)
    (w : world) (u v : string) (n : Z) (usr : UserRow) (p : ProductRow) :
  get_user (Some u) None w = (w, Ok usr) ->
  role usr = UserEnum.BUYER ->
  deposit usr <> 0%Z ->
  get_product (Some v) None w = (w, Ok p) ->
  ((amountAvailable p < n)%Z ->
   buy_product_racing others u v n w
   = (w, Err (Exn ProductAmountUnavailableException
                "Requested amount of product is not available")))
  /\ ((n <= amountAvailable p)%Z -> (deposit usr < cost p * n)%Z ->
      buy_product_racing others u v n w
      = (w, Err (Exn PurchaseException "User has exceeded deposit amount"))).
Proof.
  intros Hu Hr Hd Hp.
  assert (Hns : role usr <> UserEnum.SELLER) by (rewrite Hr; discriminate).
  rewrite (buy_product_checks others w u v n usr p Hu Hns Hd Hp).
  split.
  - intros Hstock.
    destruct (Z.ltb_spec (amountAvailable p) n); [reflexivity|lia].
  - intros Hstock Hfunds.
    destruct (Z.ltb_spec (amountAvailable p) n); [lia|].
    destruct (Z.ltb_spec (deposit usr) (cost p * n)); [reflexivity|lia].
Qed.

Lemma validation_failures_write_nothing_witness :
  buy_product_racing (fun w => w) "Johny" "81prtrvd17363a5n" 1000 (vending 10 5 500)
  = (vending 10 5 500,
     Err (Exn ProductAmountUnavailableException
            "Requested amount of product is not available"))
  /\ buy_product_racing (fun w => w) "Johny" "81prtrvd17363a5n" 10 (vending 30 5 500)
     = (vending 30 5 500,
        Err (Exn PurchaseException "User has exceeded deposit amount")).
Proof.
  split.
  - refine (proj1 (validation_failures_write_nothing (fun w => w)
                     (vending 10 5 500) "Johny" "81prtrvd17363a5n" 1000
                     (Johny 10) (apple 5 500) _ _ _ _) _).
    + reflexivity.
    + reflexivity.
    + cbn. lia.
    + reflexivity.
    + cbn. lia.
  - refine (proj2 (validation_failures_write_nothing (fun w => w)
                     (vending 30 5 500) "Johny" "81prtrvd17363a5n" 10
                     (Johny 30) (apple 5 500) _ _ _ _) _ _).
    + reflexivity.
    + reflexivity.
    + cbn. lia.
    + reflexivity.
    + cbn. lia.
    + cbn. lia.
Defined.

(** C4 (amended): the code has no check on the quantity, and a negative
    quantity is not turned away.  For an existing buyer with a deposit that
    is not 0 and a readable product whose cost is not 0, a purchase of
    [n < 0] units passes the stock and the funds check and is carried out
    like any other: it returns [(cost * n, the product with stock s - n,
    the change of d - cost * n)], the stored deposit becomes [d - cost * n],
    which is more than [d], and the stored stock [s - n], which is more
    than [s] (both being 64-bit integers). *)
Theorem negative_quantity_is_processed (w : world) (u v : string) (n : Z)
    (usr : UserRow) (p : ProductRow) :
  get_user (Some u) None w = (w, Ok usr) ->
  role usr = UserEnum.BUYER ->
  deposit usr <> 0%Z ->
  get_product (Some v) None w = (w, Ok p) ->
  cost p <> 0%Z ->
  (n < 0)%Z ->
  int64 (deposit usr - cost p * n) -> int64 (amountAvailable p - n) ->
  exists w',
    buy_product u v n w
    = (w', Ok ((cost p * n)%Z,
               set_amountAvailable (amountAvailable p - n) p,
               makeChange_spec (deposit usr - cost p * n)))
    /\ get_user (Some u) None w'
       = (w', Ok (set_deposit (deposit usr - cost p * n) usr))
    /\ get_product (Some v) None w'
       = (w', Ok (set_amountAvailable (amountAvailable p - n) p))
    /\ (deposit usr < deposit usr - cost p * n)%Z
    /\ (amountAvailable p < amountAvailable p - n)%Z.
Proof.
  intros Hu Hr Hd Hp Hc Hn _ _.
  destruct (get_user_inv _ _ _ _ Hu) as (_ & urows & urest & _ & _ & Huv).
  destruct (get_product_inv _ _ _ _ Hp) as (_ & prows & prest & _ & _ & Hpv & _).
  pose proof (user_errors_valid _ Huv) as Hd0.
  pose proof (field_errors_valid _ Hpv) as Hs0.
  pose proof (field_errors_cost _ Hpv) as Hc0.
  assert (Hpaid : (cost p * n < 0)%Z) by nia.
  destruct (buy_product_returns w u v n usr p Hu Hr Hp Hd) as (w' & H1 & H2 & H3);
    [lia | lia | lia |].
  exists w'. repeat split; try assumption; lia.
Qed.

Lemma negative_quantity_is_processed_witness :
  exists w',
    buy_product "Johny" "81prtrvd17363a5n" (-3) (vending 10 5 500)
    = (w', Ok ((-15)%Z, apple 5 503, makeChange_spec 25))
    /\ get_user (Some "Johny") None w' = (w', Ok (Johny 25))
    /\ get_product (Some "81prtrvd17363a5n") None w' = (w', Ok (apple 5 503)).
Proof.
  destruct (negative_quantity_is_processed (vending 10 5 500) "Johny"
              "81prtrvd17363a5n" (-3) (Johny 10) (apple 5 500))
    as (w' & H1 & H2 & H3 & _).
  - reflexivity.
  - reflexivity.
  - cbn. lia.
  - reflexivity.
  - cbn. lia.
  - lia.
  - unfold int64, int64_min, int64_max. cbn. lia.
  - unfold int64, int64_min, int64_max. cbn. lia.
  - exists w'. repeat split; assumption.
Defined.

(** A negative quantity passes every check: Johny, holding 10, buys -2
    apples at 5, ends with 20 on the account, and the stock grows to 502. *)
Lemma negative_quantity_counterexample :
  (-2 <= 0)%Z
  /\ buy_product "Johny" "81prtrvd17363a5n" (-2) (vending 10 5 500)
     = (vending 20 5 502, Ok ((-10)%Z, apple 5 502, [20%Z]))
  /\ ~ (exists e,
          buy_product "Johny" "81prtrvd17363a5n" (-2) (vending 10 5 500)
          = (vending 10 5 500, Err e)).
Proof.
  split; [lia|]. split; [reflexivity|].
  intros [e He]. vm_compute in He. discriminate.
Qed.

(** ** Reimbursement *)

Section Reimbursement.

Lemma update_deposit_undo (u : string) (a : Z) (rows : list UserRow) :
  update_deposit u (fun d => d + a)%Z (update_deposit u (fun d => d - a)%Z rows)
  = rows.
Proof.
  unfold update_deposit. rewrite map_map.
  rewrite <- (map_id rows) at 2. apply map_ext. intros r.
  destruct (has_username u r) eqn:Hr.
  - replace (has_username u (set_deposit (deposit r - a) r)) with true
      by (symmetry; exact Hr).
    destruct r as [i nm pw d rl]. unfold set_deposit. cbn.
    f_equal. lia.
  - now rewrite Hr.
Qed.

Variable others : world -> world.
Variables (w w2 : world) (n : Z) (usr : UserRow) (p : ProductRow) (e : exn).
Variables (urows urest : list UserRow).
Hypothesis users : user_db w = Table urows.
Hypothesis ufound : filter (has_username (username usr)) urows = usr :: urest.
Hypothesis uvalid : user_errors usr = [].
Hypothesis is_buyer : role usr = UserEnum.BUYER.
Hypothesis to_pay : (cost p * n <> 0)%Z.
Hypothesis funds : (cost p * n <= deposit usr)%Z.

(** The decrement fails, and the user table is still the debited one. *)
Hypothesis take_fails :
  take_product (productId p) n
    (others (set_user_db (Table (debited usr p n urows)) w))
  = (w2, Err e).
Hypothesis users_after : user_db w2 = Table (debited usr p n urows).

(** The handler reimburses through [deposit_amount], which takes coins
    only: the deposit is restored when the price paid is one of 5, 10, 20,
    50, 100; otherwise the deposit is refused, the account stays debited,
    and the refusal is the error the caller sees. *)
Lemma commit_purchase_take_fails :
  commit_purchase others usr p n w
  = if allowed_coin (cost p * n)
    then (set_user_db (Table urows) w2,
          Err (ExnFrom UserNotUpdatedException
                 "Product could not be bought. Amount has been reimbursed." e))
    else (w2,
          Err (ExnFrom UserNotUpdatedException
                 "Amount could not be deposited into User account"
                 (Exn NonAllowedDepositException
                    ("deposit of " ++ decimal (cost p * n)
                     ++ " coin is not allowed")%string))).
Proof.
  unfold commit_purchase, try_except, bind.
  rewrite (deduct_amount_ok w _ urows usr urest users ufound _
             is_buyer uvalid to_pay funds).
  unfold interleave at 1. fold (debited usr p n urows). cbv beta iota.
  rewrite take_fails.
  assert (Hf : filter (has_username (username usr)) (debited usr p n urows)
               = set_deposit (deposit usr - cost p * n) usr
                 :: map (fun r => set_deposit (deposit r - cost p * n) r) urest).
  { unfold debited. now rewrite filter_update_deposit, ufound. }
  destruct (allowed_coin (cost p * n)) eqn:Hc.
  - rewrite (deposit_amount_coin w2 _ (debited usr p n urows) _ _ users_after Hf).
    + unfold debited. rewrite update_deposit_undo. reflexivity.
    + exact is_buyer.
    + apply user_errors_set_deposit; [assumption|lia].
    + exact Hc.
  - rewrite (deposit_amount_rejected w2 _ (debited usr p n urows) _ _
               users_after Hf);
      [reflexivity | exact is_buyer | exact to_pay | exact Hc].
Qed.

End Reimbursement.

(** C1 (defect of the code): Johny holds 20 and buys the last apple, which
    costs 15; the 15 are debited, another buyer takes the apple before the
    decrement, and the decrement fails.  The handler's [deposit_amount] call
    refuses 15, which is no coin: the account is left at 5, and the caller
    gets the refusal instead of the failed purchase.  At a price of 10 the
    same run does give the money back. *)
Theorem reimbursement_refused_for_non_coin_price :
  buy_product_racing (last_apple_taken 15) "Johny" "81prtrvd17363a5n" 1
    (vending 20 15 1)
  = (vending 5 15 0,
     Err (ExnFrom UserNotUpdatedException
            "Amount could not be deposited into User account"
            (Exn NonAllowedDepositException "deposit of 15 coin is not allowed")))
  /\ buy_product_racing (last_apple_taken 10) "Johny" "81prtrvd17363a5n" 1
       (vending 20 10 1)
     = (vending 20 10 0,
        Err (ExnFrom UserNotUpdatedException
               "Product could not be bought. Amount has been reimbursed."
               (ExnFrom ProductNotUpdatedException
                  "Product could not be taken from Vending Machine"
                  (Exn PurchaseException "Purchase amount not available")))).
Proof. split; reflexivity. Qed.

(** C3 (defect of the code): [deduct_amount] has no guard of its own.  Asked
    for 10 from an account holding 5 it writes the balance -5 to the file,
    and fails only afterwards, when [UserModel] refuses the row it has just
    stored; from then on the account cannot be read. *)
Theorem deduct_amount_stores_negative_deposit :
  deduct_amount "Johny" 10 (vending 5 5 500)
  = (vending (-5) 5 500,
     Err (ExnFrom UserNotUpdatedException
            "Amount could not be deducted from User account"
            (Exn ValidationError "deposit must be greater than 0")))
  /\ get_user (Some "Johny") None (vending (-5) 5 500)
     = (vending (-5) 5 500,
        Err (Exn ValidationError "deposit must be greater than 0")).
Proof. split; reflexivity. Qed.

(** ** Deposits *)

Lemma allowed_coin_In (amount : Z) :
  allowed_coin amount = true <-> In amount [5; 10; 20; 50; 100]%Z.
Proof.
  unfold allowed_coin. rewrite existsb_exists. split.
  - intros (c & Hin & Heq). apply Z.eqb_eq in Heq. now subst c.
  - intros Hin. exists amount. split; [assumption|apply Z.eqb_refl].
Qed.

(** C8 (amended): for an existing buyer, depositing a coin of 5, 10, 20, 50
    or 100 adds exactly that amount to the stored deposit, as long as the
    new deposit is not beyond the largest 64-bit integer, so 5 then 10 then
    20 give 35; depositing 0 succeeds and changes nothing; any other amount
    is refused with [NonAllowedDepositException], which the caller receives
    wrapped in [UserNotUpdatedException], and the file is unchanged.  On a
    seller account the deposit is refused with [UserNotBuyerException],
    wrapped in the same way. *)
Theorem deposit_amount_cases (w : world) (u : string) (usr : UserRow)
    (amount : Z) :
  get_user (Some u) None w = (w, Ok usr) ->
  (role usr = UserEnum.BUYER ->
   (amount = 0%Z -> deposit_amount u amount w = (w, Ok usr))
   /\ (amount <> 0%Z -> ~ In amount [5; 10; 20; 50; 100]%Z ->
       deposit_amount u amount w
       = (w, Err (ExnFrom UserNotUpdatedException
                    "Amount could not be deposited into User account"
                    (Exn NonAllowedDepositException
                       ("deposit of " ++ decimal amount
                        ++ " coin is not allowed")%string))))
   /\ (In amount [5; 10; 20; 50; 100]%Z ->
       (deposit usr + amount <= int64_max)%Z ->
       exists w',
         deposit_amount u amount w
         = (w', Ok (set_deposit (deposit usr + amount) usr))
         /\ get_user (Some u) None w'
            = (w', Ok (set_deposit (deposit usr + amount) usr))))
  /\ (role usr = UserEnum.SELLER ->
      deposit_amount u amount w
      = (w, Err (ExnFrom UserNotUpdatedException
                   "Amount could not be deposited into User account"
                   (Exn UserNotBuyerException
                      "User deposit cannot be updated. User is not a buyer"))))
  /\ (deposit_amount "Johny" 5 ;;; deposit_amount "Johny" 10 ;;;
      deposit_amount "Johny" 20) (vending 0 5 500)
     = (vending 35 5 500, Ok (Johny 35)).
Proof.
  intros Hu.
  destruct (get_user_inv _ _ _ _ Hu) as (_ & rows & rest & Hdb & Hf & Hv).
  split; [|split; [|reflexivity]].
  - intros Hr. split; [|split].
    + intros ->. exact (deposit_amount_zero w u rows usr rest Hdb Hf Hr Hv).
    + intros Hz Hnot.
      apply (deposit_amount_rejected w u rows usr rest Hdb Hf amount Hr Hz).
      destruct (allowed_coin amount) eqn:Hc; [|reflexivity].
      apply allowed_coin_In in Hc. contradiction.
    + intros Hin _. apply allowed_coin_In in Hin.
      rewrite (deposit_amount_coin w u rows usr rest Hdb Hf amount Hr Hv Hin).
      eexists; split; [reflexivity|].
      assert (Hpos : (0 < amount)%Z).
      { apply allowed_coin_In in Hin. cbn in Hin.
        repeat (destruct Hin as [<-|Hin]; [lia|]). contradiction. }
      apply get_user_found
        with (rows := update_deposit u (fun d => (d + amount)%Z) rows)
             (rest := map (fun r => set_deposit (deposit r + amount) r) rest).
      * reflexivity.
      * now rewrite filter_update_deposit, Hf.
      * apply user_errors_set_deposit; [assumption|].
        apply user_errors_valid in Hv. lia.
  - intros Hr.
    apply (deposit_amount_not_buyer w u rows usr rest Hdb Hf amount).
    rewrite Hr. discriminate.
Qed.

Lemma deposit_amount_cases_witness :
  deposit_amount "Johny" 3 (vending 10 5 500)
  = (vending 10 5 500,
     Err (ExnFrom UserNotUpdatedException
            "Amount could not be deposited into User account"
            (Exn NonAllowedDepositException "deposit of 3 coin is not allowed")))
  /\ deposit_amount "Blade" 5 (vending 10 5 500)
     = (vending 10 5 500,
        Err (ExnFrom UserNotUpdatedException
               "Amount could not be deposited into User account"
               (Exn UserNotBuyerException
                  "User deposit cannot be updated. User is not a buyer")))
  /\ exists w',
       deposit_amount "Johny" 20 (vending 10 5 500) = (w', Ok (Johny 30))
       /\ get_user (Some "Johny") None w' = (w', Ok (Johny 30)).
Proof.
  split; [|split].
  - refine (proj1 (proj2 (proj1 (deposit_amount_cases (vending 10 5 500) "Johny"
                                   (Johny 10) 3 _) _)) _ _).
    + reflexivity.
    + reflexivity.
    + lia.
    + cbn. lia.
  - refine (proj1 (proj2 (deposit_amount_cases (vending 10 5 500) "Blade"
                            Blade 5 _)) _).
    + reflexivity.
    + reflexivity.
  - refine (proj2 (proj2 (proj1 (deposit_amount_cases (vending 10 5 500) "Johny"
                                   (Johny 10) 20 _) _)) _ _).
    + reflexivity.
    + reflexivity.
    + cbn. auto.
    + unfold int64_max. cbn. lia.
Defined.

(** A buyer who deposits 0 is not turned away: the call returns the
    account, unchanged. *)
Lemma deposit_of_zero_counterexample :
  get_user (Some "Johny") None (vending 10 5 500)
  = (vending 10 5 500, Ok (Johny 10))
  /\ role (Johny 10) = UserEnum.BUYER
  /\ ~ In 0%Z [5; 10; 20; 50; 100]%Z
  /\ deposit_amount "Johny" 0 (vending 10 5 500)
     = (vending 10 5 500, Ok (Johny 10))
  /\ ~ (exists e, snd (deposit_amount "Johny" 0 (vending 10 5 500)) = Err e).
Proof.
  repeat split.
  - cbn. lia.
  - intros [e He]. vm_compute in He. discriminate.
Qed.

(** ** Product creation *)

Section Creation.

Variables (w : world) (new_id name : string) (c a : Z) (seller : string).


(** The record goes to the file before [ProductModel] looks at it. *)
Lemma create_new_product_stores :
  name_taken w seller name = false ->
  create_new_product new_id name c a seller w
  = ProductModel (mkProduct new_id name c a seller)
      (set_product_db
         (Table (stored (product_db w) ++ [mkProduct new_id name c a seller])) w).
Proof.
  unfold name_taken, stored, create_new_product. run.
  destruct (product_db w) as [|rows] eqn:Hdb; run.
  - intros _. now rewrite Hdb.
  - destruct (filter (has_seller_and_name seller name) rows); [|discriminate].
    intros _. run. now rewrite Hdb.
Qed.

Lemma field_errors_rejects :
  (c < 0 \/ c mod 5 <> 0 \/ a < 0)%Z ->
  field_errors (mkProduct new_id name c a seller) <> [].
Proof.
  intros Hbad He. unfold field_errors in He.
  cbn [productId productName cost amountAvailable] in He.
  apply app_eq_nil in He. destruct He as [_ He].
  apply app_eq_nil in He. destruct He as [_ He].
  apply app_eq_nil in He. destruct He as [Hc Ha].
  unfold cost_validators, validator in Hc. unfold validator in Ha.
  destruct (Z.eqb_spec (c mod 5) 0); cbn [negb] in Hc; [|discriminate].
  destruct (Z.ltb_spec c 0); [discriminate|].
  destruct (Z.ltb_spec a 0); [discriminate|].
  lia.
Qed.


End Creation.




(** * Further properties of the stores *)

(** ** Selections, labels and dropped rows *)

Section Selections.

Context {R : Type}.
Variable mask : R -> bool.

Lemma filter_none (df : list R) :
  filter mask df = [] <-> forall r, In r df -> mask r = false.
Proof.
  induction df as [|x df IH]; cbn [filter].
  - split; [intros _ r []|reflexivity].
  - destruct (mask x) eqn:Hx.
    + split; [discriminate|]. intros H. specialize (H x (or_introl eq_refl)).
      congruence.
    + rewrite IH. split.
      * intros H r [<-|Hr]; [assumption|now apply H].
      * intros H r Hr. apply H. now right.
Qed.

(** An update of the selected rows that keeps them selected changes no row
    when nothing is selected, and commutes with the selection. *)
Lemma map_selected_none (f : R -> R) (df : list R) :
  filter mask df = [] ->
  map (fun r => if mask r then f r else r) df = df.
Proof.
  intros H. rewrite <- (map_id df) at 2. apply map_ext_in. intros r Hr.
  now rewrite (proj1 (filter_none df) H r Hr).
Qed.

Lemma filter_map_selected (q : R -> bool) (f : R -> R) (df : list R) :
  (forall r, q (f r) = q r) ->
  filter q (map (fun r => if mask r then f r else r) df)
  = map (fun r => if mask r then f r else r) (filter q df).
Proof.
  intros Hq. induction df as [|x df IH]; [reflexivity|].
  cbn [map filter].
  assert (Hx : q (if mask x then f x else x) = q x)
    by (destruct (mask x); [apply Hq|reflexivity]).
  rewrite Hx. destruct (q x); cbn [map]; now rewrite IH.
Qed.

(** The first label of a selection splits the table around the first
    selected row; dropping that label removes exactly this row. *)
Lemma labels_from_split (df : list R) (i : nat) :
  match labels_from i mask df with
  | [] => filter mask df = []
  | l :: _ =>
      exists pre x post,
        df = pre ++ x :: post /\ filter mask pre = [] /\ mask x = true
        /\ l = (i + List.length pre)%nat
  end.
Proof.
  revert i. induction df as [|r df IH]; intros i; cbn [labels_from filter].
  - reflexivity.
  - destruct (mask r) eqn:Hr.
    + exists [], r, df. cbn. rewrite Nat.add_0_r. auto.
    + specialize (IH (S i)). destruct (labels_from (S i) mask df) as [|l ls].
      * exact IH.
      * destruct IH as (pre & x & post & -> & Hpre & Hx & ->).
        exists (r :: pre), x, post. cbn [app filter List.length]. rewrite Hr.
        repeat split; try assumption. lia.
Qed.

Lemma index_split (df : list R) :
  match index mask df with
  | [] => filter mask df = []
  | l :: _ =>
      exists pre x post,
        df = pre ++ x :: post /\ filter mask pre = [] /\ mask x = true
        /\ l = List.length pre
  end.
Proof. exact (labels_from_split df 0). Qed.

Lemma drop_app (pre : list R) (x : R) (post : list R) :
  drop (List.length pre) (pre ++ x :: post) = pre ++ post.
Proof.
  induction pre as [|r pre IH]; [reflexivity|].
  cbn [List.length app drop]. now rewrite IH.
Qed.

End Selections.

(** ** Accounts that are not on file *)

Lemma unknown_username (u : string) (rows : list UserRow) :
  ~ In u (map username rows) <-> filter (has_username u) rows = [].
Proof.
  rewrite filter_none. split.
  - intros Hnot r Hr. apply String.eqb_neq. intros Heq. apply Hnot.
    rewrite <- Heq. now apply in_map.
  - intros H Hin. apply in_map_iff in Hin. destruct Hin as (r & Heq & Hr).
    specialize (H r Hr). apply String.eqb_neq in H. contradiction.
Qed.

Lemma get_user_missing (w : world) (rows : list UserRow) (u : string) :
  user_db w = Table rows ->
  filter (has_username u) rows = [] ->
  get_user (Some u) None w
  = (w, Err (ExnFrom UserNotFoundException "Username does not exist"
               (Exn IndexError "list index out of range"))).
Proof.
  intros Hdb Hnot. unfold get_user. run. rewrite Hdb. run. now rewrite Hnot.
Qed.

(** X1: a username that no stored row carries is reported as
    [UserNotFoundException] by every operation of the account store and by
    [buy_product], and none of them changes a file. *)
Theorem unknown_username_is_reported (w : world) (rows : list UserRow)
    (u : string) :
  user_db w = Table rows ->
  ~ In u (usernames w) ->
  get_user (Some u) None w
  = (w, Err (ExnFrom UserNotFoundException "Username does not exist"
               (Exn IndexError "list index out of range")))
  /\ (forall coin,
        deposit_amount u coin w
        = (w, Err (ExnFrom UserNotFoundException "Username does not exist"
                     (Exn IndexError "list index out of range"))))
  /\ (forall amount,
        deduct_amount u amount w
        = (w, Err (ExnFrom UserNotFoundException "Username does not exist"
                     (Exn IndexError "list index out of range"))))
  /\ (forall new_password,
        update_password u new_password w
        = (w, Err (ExnFrom UserNotFoundException "Username does not exist"
                     (Exn IndexError "list index out of range"))))
  /\ delete_user u w
     = (w, Err (ExnFrom UserNotFoundException "Username not found"
                  (Exn IndexError
                     "index 0 is out of bounds for axis 0 with size 0")))
  /\ (forall others v n,
        buy_product_racing others u v n w
        = (w, Err (ExnFrom UserNotFoundException "User does not exist"
                     (ExnFrom UserNotFoundException "Username does not exist"
                        (Exn IndexError "list index out of range"))))).
Proof.
  intros Hdb Hnot. unfold usernames in Hnot. rewrite Hdb in Hnot.
  cbn [stored] in Hnot. apply unknown_username in Hnot.
  pose proof (get_user_missing w rows u Hdb Hnot) as Hget.
  split; [exact Hget|]. repeat split.
  - intros coin. unfold deposit_amount. run. rewrite Hdb. run.
    now rewrite Hnot.
  - intros amount. unfold deduct_amount. run. rewrite Hdb. run.
    now rewrite Hnot.
  - intros [pw|]; unfold update_password; run; rewrite Hdb; run.
    + rewrite (map_selected_none _ _ _ Hnot). rewrite Hnot. cbn [to_csv].
      now rewrite (set_user_db_same _ _ Hdb).
    + rewrite Hnot. cbn [to_csv]. now rewrite (set_user_db_same _ _ Hdb).
  - unfold delete_user. run. rewrite Hdb. run.
    pose proof (index_split (has_username u) rows) as Hi.
    unfold index_0.
    destruct (index (has_username u) rows) as [|l ls]; [reflexivity|].
    destruct Hi as (pre & x & post & -> & _ & Hx & _).
    rewrite filter_app in Hnot. apply app_eq_nil in Hnot.
    destruct Hnot as [_ Hnot]. cbn [filter] in Hnot. rewrite Hx in Hnot.
    discriminate.
  - intros others v n. unfold buy_product_racing, bind, try_except.
    now rewrite Hget.
Qed.

Lemma unknown_username_is_reported_witness :
  get_user (Some "John") None (vending 10 5 500)
  = (vending 10 5 500,
     Err (ExnFrom UserNotFoundException "Username does not exist"
            (Exn IndexError "list index out of range"))).
Proof.
  refine (proj1 (unknown_username_is_reported (vending 10 5 500)
                   [Johny 10; Blade] "John" _ _)).
  - reflexivity.
  - cbn. intros [H|[H|[]]]; discriminate.
Defined.

(** ** Registration *)

(** Plain text is not empty. *)
Lemma plain_nonempty (s : string) : plain s = true -> s <> "".
Proof. intros H ->. discriminate. Qed.

Section Registration.

Variables (w : world) (new_id u pw r : string).

Lemma get_user_empty_file (a b : option string) :
  user_db w = EmptyFile ->
  get_user a b w = (w, Err (Exn EmptyDataError "No columns to parse from file")).
Proof. intros Hdb. unfold get_user. run. now rewrite Hdb. Qed.

(** For a new username the row is appended, and only then validated. *)
Lemma create_new_user_fresh :
  ~ In u (usernames w) ->
  create_new_user new_id u pw r w
  = UserModel (mkUser new_id u pw 0 r)
      (set_user_db (Table (stored (user_db w) ++ [mkUser new_id u pw 0 r])) w).
Proof.
  intros Hnot. unfold create_new_user, hash_password, bind, try_except.
  destruct (user_db w) as [|rows] eqn:Hdb.
  - rewrite (get_user_empty_file _ _ Hdb). run. now rewrite Hdb.
  - unfold usernames in Hnot. rewrite Hdb in Hnot. cbn [stored] in Hnot.
    apply unknown_username in Hnot.
    rewrite (get_user_missing w rows u Hdb Hnot). run. now rewrite Hdb.
Qed.

Lemma create_new_user_taken :
  In u (usernames w) ->
  exists e,
    create_new_user new_id u pw r w
    = (w, Err (ExnFrom UserNotCreatedException
                 "User account could not be created" e))
    /\ forall usr,
         get_user (Some u) None w = (w, Ok usr) ->
         e = Exn UserExistsException "Username already exists".
Proof.
  intros Hin. unfold usernames in Hin.
  destruct (user_db w) as [|rows] eqn:Hdb; [contradiction|].
  cbn [stored] in Hin.
  destruct (filter (has_username u) rows) as [|r0 rest] eqn:Hf.
  { apply unknown_username in Hf. contradiction. }
  pose proof (found_username _ _ _ _ Hf) as Hname.
  unfold create_new_user, bind, try_except.
  assert (Hget : get_user (Some u) None w = UserModel r0 w).
  { unfold get_user. run. rewrite Hdb. run. rewrite Hf. run.
    unfold UserModel. run. now destruct (user_errors r0). }
  rewrite Hget. unfold UserModel, validated.
  destruct (user_errors r0) as [|m ms]; run.
  - rewrite Hname, String.eqb_refl. run. eexists; split; [reflexivity|].
    reflexivity.
  - eexists; split; [reflexivity|]. discriminate.
Qed.

End Registration.

Lemma user_errors_new_account (new_id u pw r : string) :
  new_id <> "" -> u <> "" -> pw <> "" ->
  user_errors (mkUser new_id u pw 0 r) = [].
Proof.
  intros Hid Hu Hpw. apply String.eqb_neq in Hid, Hu, Hpw.
  unfold user_errors, validator. cbn [id username password deposit].
  now rewrite Hid, Hu, Hpw.
Qed.

(** X2: registering a username that is not on file returns the new account,
    with deposit 0 and the password as it was given; the account can be
    looked up afterwards, every account readable before is still read the
    same, and the catalog is untouched.  The texts on file and the ones
    given are plain. *)
Theorem create_new_user_round_trip (w : world) (new_id u pw r : string) :
  ~ In u (usernames w) ->
  plain_users w = true ->
  plain new_id = true -> plain u = true -> plain pw = true ->
  plain r = true ->
  exists w',
    create_new_user new_id u pw r w = (w', Ok (mkUser new_id u pw 0 r))
    /\ get_user (Some u) None w' = (w', Ok (mkUser new_id u pw 0 r))
    /\ (forall u' usr',
          get_user (Some u') None w = (w, Ok usr') ->
          get_user (Some u') None w' = (w', Ok usr'))
    /\ product_db w' = product_db w.
Proof.
  intros Hnot _ Hid Hu Hpw _.
  apply plain_nonempty in Hid, Hu, Hpw.
  pose proof (user_errors_new_account new_id u pw r Hid Hu Hpw) as Hv.
  rewrite (create_new_user_fresh w new_id u pw r Hnot).
  set (data := mkUser new_id u pw 0 r) in *.
  set (w' := set_user_db (Table (stored (user_db w) ++ [data])) w).
  exists w'. unfold UserModel, validated. rewrite Hv.
  assert (Hfresh : filter (has_username u) (stored (user_db w)) = []).
  { apply unknown_username. exact Hnot. }
  repeat split.
  - apply get_user_found
      with (rows := stored (user_db w) ++ [data]) (rest := []);
      [reflexivity | | exact Hv].
    rewrite filter_app, Hfresh. unfold data, has_username.
    cbn [filter app username]. now rewrite String.eqb_refl.
  - intros u' usr' Hget.
    destruct (get_user_inv _ _ _ _ Hget) as (_ & rows & rest & Hdb & Hf & Hv').
    apply get_user_found
      with (rows := stored (user_db w) ++ [data])
           (rest := rest ++ filter (has_username u') [data]);
      [reflexivity | | exact Hv'].
    rewrite Hdb. cbn [stored]. now rewrite filter_app, Hf.
Qed.

Lemma create_new_user_round_trip_witness :
  exists w',
    create_new_user "k3v9x0q2m5n8b1c7" "Ann" "secret" "buyer" (vending 10 5 500)
    = (w', Ok (mkUser "k3v9x0q2m5n8b1c7" "Ann" "secret" 0 "buyer"))
    /\ get_user (Some "Ann") None w'
       = (w', Ok (mkUser "k3v9x0q2m5n8b1c7" "Ann" "secret" 0 "buyer")).
Proof.
  destruct (create_new_user_round_trip (vending 10 5 500) "k3v9x0q2m5n8b1c7"
              "Ann" "secret" "buyer") as (w' & H1 & H2 & _).
  - cbn. intros [H|[H|[]]]; discriminate.
  - reflexivity.
  - reflexivity.
  - reflexivity.
  - reflexivity.
  - reflexivity.
  - exists w'. split; assumption.
Defined.

(** X3: registering a username that is already on file fails with
    [UserNotCreatedException] and changes nothing; when the stored account
    is readable, the cause is [UserExistsException]. *)
Theorem create_new_user_rejects_taken_username (w : world)
    (new_id u pw r : string) :
  In u (usernames w) ->
  exists e,
    create_new_user new_id u pw r w
    = (w, Err (ExnFrom UserNotCreatedException
                 "User account could not be created" e))
    /\ forall usr,
         get_user (Some u) None w = (w, Ok usr) ->
         e = Exn UserExistsException "Username already exists".
Proof. apply create_new_user_taken. Qed.

Lemma create_new_user_rejects_taken_username_witness :
  exists e,
    create_new_user "k3v9x0q2m5n8b1c7" "Blade" "other" "buyer" (vending 10 5 500)
    = (vending 10 5 500,
       Err (ExnFrom UserNotCreatedException
              "User account could not be created" e)).
Proof.
  destruct (create_new_user_rejects_taken_username (vending 10 5 500)
              "k3v9x0q2m5n8b1c7" "Blade" "other" "buyer") as (e & He & _).
  - cbn. auto.
  - exists e. exact He.
Defined.

(** X4: registration keeps usernames unique: a file without duplicate
    usernames has none after the call, whether the username was taken or
    not.  The texts on file and the ones given are plain. *)
Theorem create_new_user_keeps_usernames_unique (w : world)
    (new_id u pw r : string) :
  NoDup (usernames w) ->
  plain_users w = true ->
  plain new_id = true -> plain u = true -> plain pw = true ->
  plain r = true ->
  NoDup (usernames (fst (create_new_user new_id u pw r w))).
Proof.
  intros Hnd _ _ _ _ _. destruct (in_dec string_dec u (usernames w)) as [Hin|Hnot].
  - destruct (create_new_user_taken w new_id u pw r Hin) as (e & -> & _).
    exact Hnd.
  - rewrite (create_new_user_fresh w new_id u pw r Hnot).
    unfold UserModel. rewrite read_only_validated.
    unfold usernames at 1. cbn [set_user_db user_db stored].
    rewrite map_app. cbn [map username].
    fold (usernames w).
    apply (NoDup_Add (a := u) (l := usernames w)); [|split; assumption].
    rewrite <- (app_nil_r (usernames w)) at 1.
    apply Add_app.
Qed.

Lemma create_new_user_keeps_usernames_unique_witness :
  usernames (fst (create_new_user "k3v9x0q2m5n8b1c7" "Ann" "secret" "buyer"
                    (vending 10 5 500)))
  = ["Johny"; "Blade"; "Ann"]
  /\ NoDup (usernames (fst (create_new_user "k3v9x0q2m5n8b1c7" "Ann" "secret"
                              "buyer" (vending 10 5 500)))).
Proof.
  split; [reflexivity|].
  apply create_new_user_keeps_usernames_unique.
  - cbn. repeat constructor; cbn; intuition discriminate.
  - reflexivity.
  - reflexivity.
  - reflexivity.
  - reflexivity.
  - reflexivity.
Defined.

(** ** Passwords on file *)

Lemma user_errors_set_password (usr : UserRow) (pw : string) :
  user_errors usr = [] -> pw <> "" -> user_errors (set_password pw usr) = [].
Proof.
  unfold user_errors, validator. cbn [set_password id username password deposit].
  intros Hv Hpw. apply String.eqb_neq in Hpw. rewrite Hpw.
  destruct (String.eqb (id usr) ""), (String.eqb (username usr) "");
    try discriminate.
  destruct (String.eqb (password usr) ""); [discriminate|exact Hv].
Qed.

Lemma update_password_run (w : world) (u : string) (usr : UserRow)
    (pw : string) :
  get_user (Some u) None w = (w, Ok usr) ->
  pw <> "" ->
  update_password u None w = (w, Ok usr)
  /\ exists w',
       update_password u (Some pw) w = (w', Ok (set_password pw usr))
       /\ get_user (Some u) None w' = (w', Ok (set_password pw usr))
       /\ (forall u' usr',
             u' <> u ->
             get_user (Some u') None w = (w, Ok usr') ->
             get_user (Some u') None w' = (w', Ok usr'))
       /\ product_db w' = product_db w.
Proof.
  intros Hget Hpw.
  destruct (get_user_inv _ _ _ _ Hget) as (_ & rows & rest & Hdb & Hf & Hv).
  pose proof (filter_head _ _ _ _ Hf) as Hu.
  split.
  - unfold update_password, UserModel. run. rewrite Hdb. run. rewrite Hf.
    cbn [to_csv]. rewrite (set_user_db_same _ _ Hdb). now rewrite Hv.
  - set (g := fun r => if has_username u r then set_password pw r else r).
    assert (Hsel : forall q, (forall r, q (set_password pw r) = q r) ->
                     filter q (map g rows) = map g (filter q rows)).
    { intros q Hq. apply filter_map_selected. exact Hq. }
    exists (set_user_db (Table (map g rows)) w). repeat split.
    + unfold update_password, UserModel, hash_password. run. rewrite Hdb. run.
      fold g. rewrite (Hsel (has_username u)) by reflexivity.
      rewrite Hf. cbn [map to_csv].
      replace (g usr) with (set_password pw usr) by (unfold g; now rewrite Hu).
      now rewrite (user_errors_set_password _ _ Hv Hpw).
    + apply get_user_found with (rows := map g rows) (rest := map g rest).
      * reflexivity.
      * rewrite (Hsel (has_username u)) by reflexivity.
        rewrite Hf. cbn [map]. unfold g at 1. now rewrite Hu.
      * now apply user_errors_set_password.
    + intros u' usr' Hne Hget'.
      destruct (get_user_inv _ _ _ _ Hget')
        as (_ & rows' & rest' & Hdb' & Hf' & Hv').
      rewrite Hdb in Hdb'. injection Hdb' as <-.
      apply get_user_found with (rows := map g rows) (rest := map g rest').
      * reflexivity.
      * rewrite (Hsel (has_username u')) by reflexivity.
        rewrite Hf'. cbn [map]. unfold g at 1.
        replace (has_username u usr') with false; [reflexivity|].
        symmetry. apply String.eqb_neq.
        rewrite (found_username _ _ _ _ Hf'). exact Hne.
      * exact Hv'.
Qed.


(** X5: for an account on file, [update_password] without a password
    returns the account and changes nothing; with a password it stores that
    password, as given, in the account, which reads back with the new
    password and is otherwise unchanged, as are all other accounts and the
    catalog.  The texts on file and the password given are plain. *)
Theorem update_password_round_trip (w : world) (u : string) (usr : UserRow)
    (pw : string) :
  get_user (Some u) None w = (w, Ok usr) ->
  plain_users w = true ->
  plain pw = true ->
  update_password u None w = (w, Ok usr)
  /\ exists w',
       update_password u (Some pw) w = (w', Ok (set_password pw usr))
       /\ get_user (Some u) None w' = (w', Ok (set_password pw usr))
       /\ (forall u' usr',
             u' <> u ->
             get_user (Some u') None w = (w, Ok usr') ->
             get_user (Some u') None w' = (w', Ok usr'))
       /\ product_db w' = product_db w.
Proof.
  intros Hu _ Hpw. apply update_password_run; [exact Hu|].
  now apply plain_nonempty.
Qed.

Lemma update_password_round_trip_witness :
  exists w',
    update_password "Johny" (Some "abcd") (vending 10 5 500)
    = (w', Ok (mkUser "ab12" "Johny" "abcd" 10 "buyer"))
    /\ get_user (Some "Johny") None w'
       = (w', Ok (mkUser "ab12" "Johny" "abcd" 10 "buyer"))
    /\ get_user (Some "Blade") None w' = (w', Ok Blade).
Proof.
  destruct (update_password_round_trip (vending 10 5 500) "Johny" (Johny 10)
              "abcd") as (_ & w' & H1 & H2 & H3 & _).
  - reflexivity.
  - reflexivity.
  - reflexivity.
  - exists w'. split; [exact H1|]. split; [exact H2|].
    apply H3; [discriminate|reflexivity].
Defined.

(** ** Deleting an account *)

(** [delete_user] removes the first row of that username, and no other. *)
Lemma delete_user_first (w : world) (rows : list UserRow) (u : string) :
  user_db w = Table rows ->
  In u (map username rows) ->
  exists pre x post,
    rows = pre ++ x :: post
    /\ filter (has_username u) pre = []
    /\ username x = u
    /\ delete_user u w = (set_user_db (Table (pre ++ post)) w, Ok true).
Proof.
  intros Hdb Hin.
  pose proof (index_split (has_username u) rows) as Hi.
  destruct (index (has_username u) rows) as [|l ls] eqn:Hidx.
  { apply unknown_username in Hi. contradiction. }
  destruct Hi as (pre & x & post & Hrows & Hpre & Hx & Hl).
  exists pre, x, post. repeat split; try assumption.
  - now apply has_username_eq.
  - unfold delete_user. run. rewrite Hdb. run. rewrite Hidx. run.
    unfold index_0. run. cbn [to_csv]. subst l rows. now rewrite drop_app.
Qed.

(** X6: deleting an account on file succeeds whatever its role and its
    deposit.  With unique usernames the account is gone afterwards, every
    other readable account is read as before, and the catalog is
    untouched.  The texts on file are plain. *)
Theorem delete_user_removes_the_account (w : world) (rows : list UserRow)
    (u : string) :
  user_db w = Table rows ->
  In u (usernames w) ->
  NoDup (usernames w) ->
  plain_users w = true ->
  exists w',
    delete_user u w = (w', Ok true)
    /\ ~ In u (usernames w')
    /\ get_user (Some u) None w'
       = (w', Err (ExnFrom UserNotFoundException "Username does not exist"
                     (Exn IndexError "list index out of range")))
    /\ (forall u' usr',
          u' <> u ->
          get_user (Some u') None w = (w, Ok usr') ->
          get_user (Some u') None w' = (w', Ok usr'))
    /\ product_db w' = product_db w.
Proof.
  intros Hdb Hin Hnd _. unfold usernames in Hin, Hnd. rewrite Hdb in Hin, Hnd.
  cbn [stored] in Hin, Hnd.
  destruct (delete_user_first w rows u Hdb Hin)
    as (pre & x & post & -> & Hpre & Hx & Hdel).
  exists (set_user_db (Table (pre ++ post)) w).
  assert (Hgone : ~ In u (map username (pre ++ post))).
  { rewrite map_app in Hnd |- *. cbn [map] in Hnd. rewrite Hx in Hnd.
    apply NoDup_remove_2 in Hnd. exact Hnd. }
  repeat split.
  - exact Hdel.
  - exact Hgone.
  - apply get_user_missing with (rows := pre ++ post); [reflexivity|].
    now apply unknown_username.
  - intros u' usr' Hne Hget.
    destruct (get_user_inv _ _ _ _ Hget) as (_ & rows' & rest & Hdb' & Hf & Hv).
    rewrite Hdb in Hdb'. injection Hdb' as <-.
    apply get_user_found with (rows := pre ++ post) (rest := rest);
      [reflexivity | | exact Hv].
    rewrite <- Hf. rewrite !filter_app. cbn [filter].
    replace (has_username u' x) with false; [reflexivity|].
    symmetry. apply String.eqb_neq. rewrite Hx. congruence.
Qed.

Lemma delete_user_removes_the_account_witness :
  exists w',
    delete_user "Johny" (vending 10 5 500) = (w', Ok true)
    /\ ~ In "Johny" (usernames w')
    /\ get_user (Some "Blade") None w' = (w', Ok Blade).
Proof.
  destruct (delete_user_removes_the_account (vending 10 5 500)
              [Johny 10; Blade] "Johny") as (w' & H1 & H2 & _ & H3 & _).
  - reflexivity.
  - cbn. auto.
  - cbn. repeat constructor; cbn; intuition discriminate.
  - reflexivity.
  - exists w'. split; [exact H1|]. split; [exact H2|].
    apply H3; [discriminate|reflexivity].
Defined.

(** X7: deleting a seller leaves the seller's products on file, and they
    become unreadable: with unique ids, [get_product] on such a product
    raises [UserNotFoundException] from the [sellerId] validator, and so
    does every purchase of it. *)
Theorem deleted_seller_orphans_products (w : world) (u v : string)
    (usr : UserRow) (p : ProductRow) :
  get_user (Some u) None w = (w, Ok usr) ->
  NoDup (account_ids w) ->
  get_product (Some v) None w = (w, Ok p) ->
  sellerId p = id usr ->
  exists w',
    delete_user u w = (w', Ok true)
    /\ get_product (Some v) None w'
       = (w', Err (Exn UserNotFoundException "sellerId does not exist"))
    /\ forall others b n buyer,
         get_user (Some b) None w' = (w', Ok buyer) ->
         role buyer <> UserEnum.SELLER -> deposit buyer <> 0%Z ->
         buy_product_racing others b v n w'
         = (w', Err (Exn UserNotFoundException "sellerId does not exist")).
Proof.
  intros Hget Hnd Hprod Hseller.
  destruct (get_user_inv _ _ _ _ Hget) as (_ & rows & rest & Hdb & Hf & Hv).
  destruct (get_product_inv _ _ _ _ Hprod)
    as (_ & prows & prest & Hpdb & Hpf & Hpv & Hs).
  assert (Hin : In u (map username rows)).
  { destruct (in_dec string_dec u (map username rows)) as [H|H]; [exact H|].
    apply unknown_username in H. rewrite H in Hf. discriminate. }
  destruct (delete_user_first w rows u Hdb Hin)
    as (pre & x & post & -> & Hpre & Hx & Hdel).
  assert (Hxu : x = usr).
  { rewrite filter_app, Hpre in Hf. cbn [filter app] in Hf.
    apply has_username_eq in Hx. rewrite Hx in Hf. now injection Hf. }
  subst x.
  set (w' := set_user_db (Table (pre ++ post)) w) in *.
  assert (Hne : String.eqb (sellerId p) "" = false).
  { unfold sellerId_validators in Hs.
    destruct (String.eqb (sellerId p) ""); [discriminate|reflexivity]. }
  assert (Hgone : existsb (String.eqb (sellerId p)) (map id (pre ++ post))
                  = false).
  { unfold account_ids in Hnd. rewrite Hdb in Hnd. cbn [stored] in Hnd.
    rewrite map_app in Hnd |- *. cbn [map] in Hnd.
    apply NoDup_remove_2 in Hnd.
    destruct (existsb (String.eqb (sellerId p)) (map id pre ++ map id post))
      eqn:He; [|reflexivity].
    apply existsb_exists in He. destruct He as (i & Hi & Heq).
    apply String.eqb_eq in Heq. subst i. rewrite Hseller in Hi. contradiction. }
  assert (Hget' : get_product (Some v) None w'
                  = (w', Err (Exn UserNotFoundException
                                "sellerId does not exist"))).
  { unfold get_product. run. unfold w' at 1. cbn [set_user_db product_db].
    rewrite Hpdb. run. rewrite Hpf. run.
    unfold ProductModel, sellerId_validators. rewrite Hne. run.
    unfold w' at 1. cbn [set_user_db user_db]. now rewrite Hgone. }
  exists w'. split; [exact Hdel|]. split; [exact Hget'|].
  intros others b n buyer Hb Hrole Hdep.
  apply String.eqb_neq in Hrole. apply Z.eqb_neq in Hdep.
  unfold buy_product_racing, bind, try_except.
  now rewrite Hb, Hrole, Hdep, Hget'.
Qed.

Lemma deleted_seller_orphans_products_witness :
  exists w',
    delete_user "Blade" (vending 10 5 500) = (w', Ok true)
    /\ get_product (Some "81prtrvd17363a5n") None w'
       = (w', Err (Exn UserNotFoundException "sellerId does not exist")).
Proof.
  destruct (deleted_seller_orphans_products (vending 10 5 500) "Blade"
              "81prtrvd17363a5n" Blade (apple 5 500)) as (w' & H1 & H2 & _).
  - reflexivity.
  - cbn. repeat constructor; cbn; intuition discriminate.
  - reflexivity.
  - reflexivity.
  - exists w'. split; assumption.
Defined.

(** ** The catalog: ownership *)

Section Ownership.

Variables (s : string) (n : string).

Lemma owned_by_key (r : ProductRow) :
  owned_by s (Some n) r = true <-> (sellerId r, productName r) = (s, n).
Proof.
  unfold owned_by. rewrite andb_true_iff, !String.eqb_eq. split.
  - intros [-> ->]. reflexivity.
  - intros H. now inversion H.
Qed.

Lemma has_seller_and_name_owned (r : ProductRow) :
  has_seller_and_name s n r = owned_by s (Some n) r.
Proof. reflexivity. Qed.

Lemma owned_in_sellers (o : option string) (rows : list ProductRow)
    (p : ProductRow) :
  In p rows -> owned_by s o p = true ->
  existsb (String.eqb s) (map sellerId rows) = true.
Proof.
  intros Hin Ho. apply existsb_exists. exists (sellerId p). split.
  - now apply in_map.
  - unfold owned_by in Ho. apply andb_true_iff in Ho. destruct Ho as [Hs _].
    apply String.eqb_eq in Hs. rewrite Hs. apply String.eqb_refl.
Qed.


End Ownership.

Lemma name_taken_iff (w : world) (s n : string) :
  name_taken w s n = true <-> In (s, n) (product_keys w).
Proof.
  unfold name_taken, product_keys. split.
  - destruct (filter (has_seller_and_name s n) (stored (product_db w)))
      as [|r rest] eqn:Hf; [discriminate|]. intros _.
    assert (Hin : In r (filter (has_seller_and_name s n) (stored (product_db w))))
      by (rewrite Hf; now left).
    apply filter_In in Hin. destruct Hin as [Hin Ho].
    apply (owned_by_key s n r) in Ho. rewrite <- Ho.
    now apply (in_map (fun r => (sellerId r, productName r))).
  - intros Hin. apply in_map_iff in Hin. destruct Hin as (r & Hk & Hr).
    destruct (filter (has_seller_and_name s n) (stored (product_db w)))
      as [|r0 rest] eqn:Hf; [|reflexivity].
    pose proof (proj1 (filter_none _ _) Hf r Hr) as Hno.
    apply (owned_by_key s n r) in Hk.
    rewrite <- has_seller_and_name_owned in Hk. congruence.
Qed.

(** ** Product creation: names *)

Lemma create_new_product_taken (w : world) (new_id n : string) (c a : Z)
    (s : string) :
  name_taken w s n = true ->
  create_new_product new_id n c a s w
  = (w, Err (ExnFrom ProductNotCreatedException
               "Product could not be added to db"
               (Exn ProductExistsException "Product already exists"))).
Proof.
  unfold name_taken, create_new_product, stored. run.
  destruct (product_db w) as [|rows]; [discriminate|]. run.
  now destruct (filter (has_seller_and_name s n) rows).
Qed.

(** X8: a seller cannot create a second product of the same name: the call
    fails with [ProductNotCreatedException] caused by
    [ProductExistsException] and changes nothing.  Hence creation keeps the
    (seller, name) pairs of the catalog unique, whatever its outcome.  The
    texts on file and the ones given are plain, the cost and the amount
    64-bit integers. *)
Theorem create_new_product_keeps_names_unique (w : world)
    (new_id n : string) (c a : Z) (s : string) :
  plain_products w = true ->
  plain new_id = true -> plain n = true -> plain s = true ->
  int64 c -> int64 a ->
  (In (s, n) (product_keys w) ->
   create_new_product new_id n c a s w
   = (w, Err (ExnFrom ProductNotCreatedException
                "Product could not be added to db"
                (Exn ProductExistsException "Product already exists"))))
  /\ (NoDup (product_keys w) ->
      NoDup (product_keys (fst (create_new_product new_id n c a s w)))).
Proof.
  intros _ _ _ _ _ _. split.
  - intros Hin. apply create_new_product_taken. now apply name_taken_iff.
  - intros Hnd. destruct (name_taken w s n) eqn:Ht.
    + now rewrite (create_new_product_taken w new_id n c a s Ht).
    + rewrite (create_new_product_stores w new_id n c a s Ht).
      rewrite ProductModel_pure.
      unfold product_keys at 1. cbn [set_product_db product_db stored].
      rewrite map_app. cbn [map sellerId productName].
      fold (product_keys w).
      apply (NoDup_Add (a := (s, n)) (l := product_keys w)).
      * rewrite <- (app_nil_r (product_keys w)) at 1. apply Add_app.
      * split; [exact Hnd|]. intros Hin. apply name_taken_iff in Hin.
        congruence.
Qed.

Lemma create_new_product_keeps_names_unique_witness :
  create_new_product "abcdefgh12345678" "pear" 10 3 "uqfp2h1jh8at5pvo"
    (stall 10 5 500)
  = (stall 10 5 500,
     Err (ExnFrom ProductNotCreatedException
            "Product could not be added to db"
            (Exn ProductExistsException "Product already exists")))
  /\ product_keys (fst (create_new_product "abcdefgh12345678" "fig" 10 3
                          "uqfp2h1jh8at5pvo" (stall 10 5 500)))
     = [("uqfp2h1jh8at5pvo", "pear"); ("uqfp2h1jh8at5pvo", "fig")]
  /\ NoDup (product_keys (fst (create_new_product "abcdefgh12345678" "fig" 10 3
                                 "uqfp2h1jh8at5pvo" (stall 10 5 500)))).
Proof.
  split; [|split; [reflexivity|]].
  - apply (proj1 (create_new_product_keeps_names_unique (stall 10 5 500)
                    "abcdefgh12345678" "pear" 10 3 "uqfp2h1jh8at5pvo"
                    eq_refl eq_refl eq_refl eq_refl
                    ltac:(unfold int64, int64_min, int64_max; lia)
                    ltac:(unfold int64, int64_min, int64_max; lia))).
    cbn. auto.
  - apply (proj2 (create_new_product_keeps_names_unique (stall 10 5 500)
                    "abcdefgh12345678" "fig" 10 3 "uqfp2h1jh8at5pvo"
                    eq_refl eq_refl eq_refl eq_refl
                    ltac:(unfold int64, int64_min, int64_max; lia)
                    ltac:(unfold int64, int64_min, int64_max; lia))).
    cbn. repeat constructor; cbn; intuition discriminate.
Defined.

(** X9: [create_new_product] writes the record before [ProductModel] looks
    at it.  For a name the seller does not have yet the record is on file
    after the call even when the call raises, as it does for a bad cost or
    amount; the name is then taken, and a second attempt is turned down as
    a duplicate.  The texts on file and the ones given are plain, the cost
    and the amount 64-bit integers. *)
Theorem create_new_product_stores_rejected_record (w : world)
    (new_id n : string) (c a : Z) (s : string) :
  name_taken w s n = false ->
  plain_products w = true ->
  plain new_id = true -> plain n = true -> plain s = true ->
  int64 c -> int64 a ->
  let w' := fst (create_new_product new_id n c a s w) in
  stored (product_db w') = stored (product_db w) ++ [mkProduct new_id n c a s]
  /\ user_db w' = user_db w
  /\ ((c < 0 \/ c mod 5 <> 0 \/ a < 0)%Z ->
      exists e, snd (create_new_product new_id n c a s w) = Err e)
  /\ forall new_id' c' a',
       create_new_product new_id' n c' a' s w'
       = (w', Err (ExnFrom ProductNotCreatedException
                     "Product could not be added to db"
                     (Exn ProductExistsException "Product already exists"))).
Proof.
  intros Hfree _ _ _ _ _ _ w'. subst w'.
  rewrite (create_new_product_stores w new_id n c a s Hfree).
  set (data := mkProduct new_id n c a s).
  set (w1 := set_product_db (Table (stored (product_db w) ++ [data])) w).
  rewrite ProductModel_pure. repeat split.
  - intros Hbad.
    pose proof (field_errors_rejects new_id n c a s Hbad) as Hne. fold data in Hne.
    unfold ProductModel, bind.
    pose proof (sellerId_validators_pure (sellerId data) w1) as Hw.
    destruct (sellerId_validators (sellerId data) w1) as [w2 [es|e]];
      [|cbn [snd]; eauto].
    unfold validated. destruct (field_errors data) as [|m ms];
      [contradiction|]. cbn [app]. run. eauto.
  - intros new_id' c' a'. apply create_new_product_taken.
    apply name_taken_iff. unfold product_keys, w1.
    rewrite ProductModel_pure.
    cbn [set_product_db product_db stored]. rewrite map_app.
    apply in_or_app. right. now left.
Qed.

Lemma create_new_product_stores_rejected_record_witness :
  stored (product_db (fst (create_new_product "abcdefgh12345678" "fig" 6 3
                             "uqfp2h1jh8at5pvo" (stall 10 5 500))))
  = [pear 5 500; mkProduct "abcdefgh12345678" "fig" 6 3 "uqfp2h1jh8at5pvo"]
  /\ exists e,
       snd (create_new_product "abcdefgh12345678" "fig" 6 3
              "uqfp2h1jh8at5pvo" (stall 10 5 500)) = Err e.
Proof.
  destruct (create_new_product_stores_rejected_record (stall 10 5 500)
              "abcdefgh12345678" "fig" 6 3 "uqfp2h1jh8at5pvo")
    as (H1 & _ & H2 & _).
  - reflexivity.
  - reflexivity.
  - reflexivity.
  - reflexivity.
  - reflexivity.
  - unfold int64, int64_min, int64_max. lia.
  - unfold int64, int64_min, int64_max. lia.
  - split; [exact H1|]. apply H2. right. left. cbn. lia.
Defined.

(** ** Updating a product *)

Lemma update_product_cost_shape (s : string) (o : option string) (c : Z) :
  update_product_cost s o c
  = update_owned (set_cost c) "Product cost could not be updated" s o.
Proof. reflexivity. Qed.

Lemma update_product_amountAvailable_shape (s : string) (o : option string)
    (a : Z) :
  update_product_amountAvailable s o a
  = update_owned (set_amountAvailable a)
      "Product amountAvailable could not be updated" s o.
Proof. reflexivity. Qed.

Section UpdateOwned.

Variable f : ProductRow -> ProductRow.
Variable msg : string.
Hypothesis f_productId : forall r, productId (f r) = productId r.
Hypothesis f_productName : forall r, productName (f r) = productName r.
Hypothesis f_sellerId : forall r, sellerId (f r) = sellerId r.

Variables (w : world) (s : string) (o : option string).
Variable rows : list ProductRow.
Hypothesis products : product_db w = Table rows.



(** Nothing of that seller and name: the call raises before it writes. *)
Lemma update_owned_not_owner :
  filter (owned_by s o) rows = [] ->
  update_owned f msg s o w
  = (w, Err (ExnFrom ProductNotUpdatedException msg
               (if existsb (String.eqb s) (map sellerId rows)
                then Exn ProductNotFoundException "Product does not exist"
                else Exn UserNotSellerException "User is not a seller"))).
Proof.
  intros Hnone. unfold update_owned. run. rewrite products. run.
  destruct (existsb (String.eqb s) (map sellerId rows)); run; [|reflexivity].
  now rewrite Hnone.
Qed.



End UpdateOwned.





Section UpdateOwnedProduct.

Variable f : ProductRow -> ProductRow.
Variable msg : string.
Hypothesis f_productId : forall r, productId (f r) = productId r.
Hypothesis f_productName : forall r, productName (f r) = productName r.
Hypothesis f_sellerId : forall r, sellerId (f r) = sellerId r.

Variables (w : world) (v : string) (p : ProductRow).
Hypothesis readable : get_product (Some v) None w = (w, Ok p).





End UpdateOwnedProduct.





(** X12: only the owner can change or delete a product.  When the catalog
    has no product of that seller and name, both updates and the deletion
    fail and change nothing; the cause is [UserNotSellerException] when the
    caller owns no product at all and [ProductNotFoundException] otherwise.
    An update without a product name fails in the same way. *)
Theorem only_the_owner_changes_a_product (w : world)
    (rows : list ProductRow) (s n : string) :
  product_db w = Table rows ->
  ~ In (s, n) (product_keys w) ->
  let cause :=
    if existsb (String.eqb s) (map sellerId rows)
    then Exn ProductNotFoundException "Product does not exist"
    else Exn UserNotSellerException "User is not a seller" in
  (forall o c,
     o = Some n \/ o = None ->
     update_product_cost s o c w
     = (w, Err (ExnFrom ProductNotUpdatedException
                  "Product cost could not be updated" cause)))
  /\ (forall o a,
        o = Some n \/ o = None ->
        update_product_amountAvailable s o a w
        = (w, Err (ExnFrom ProductNotUpdatedException
                     "Product amountAvailable could not be updated" cause)))
  /\ delete_product s n w
     = (w, Err (ExnFrom ProductNotDeletedException
                  "Product could not be deleted" cause)).
Proof.
  intros Hdb Hnot cause.
  assert (Hnone : filter (owned_by s (Some n)) rows = []).
  { destruct (name_taken w s n) eqn:Ht.
    - apply name_taken_iff in Ht. contradiction.
    - unfold name_taken in Ht. rewrite Hdb in Ht. cbn [stored] in Ht.
      destruct (filter (has_seller_and_name s n) rows) eqn:Hf;
        [exact Hf|discriminate]. }
  assert (Hnone' : forall o, o = Some n \/ o = None ->
                     filter (owned_by s o) rows = []).
  { intros o [->| ->]; [exact Hnone|].
    apply filter_none. intros r _. unfold owned_by. apply andb_false_r. }
  repeat split.
  - intros o c Ho. rewrite update_product_cost_shape.
    now apply update_owned_not_owner; [|apply Hnone'].
  - intros o a Ho. rewrite update_product_amountAvailable_shape.
    now apply update_owned_not_owner; [|apply Hnone'].
  - unfold delete_product, cause. run. rewrite Hdb. run.
    destruct (existsb (String.eqb s) (map sellerId rows)); run; [|reflexivity].
    now rewrite Hnone.
Qed.

Lemma only_the_owner_changes_a_product_witness :
  delete_product "ab12" "apple" (vending 10 5 500)
  = (vending 10 5 500,
     Err (ExnFrom ProductNotDeletedException "Product could not be deleted"
            (Exn UserNotSellerException "User is not a seller"))).
Proof.
  refine (proj2 (proj2 (only_the_owner_changes_a_product (vending 10 5 500)
                          [apple 5 500] "ab12" "apple" _ _))).
  - reflexivity.
  - cbn. intros [H|[]]. discriminate.
Defined.

(** ** Deleting a product *)

(** [delete_product] removes the first row of that seller and name, and no
    other. *)
Lemma delete_product_first (w : world) (rows : list ProductRow) (s n : string) :
  product_db w = Table rows ->
  In (s, n) (product_keys w) ->
  exists pre x post,
    rows = pre ++ x :: post
    /\ filter (owned_by s (Some n)) pre = []
    /\ owned_by s (Some n) x = true
    /\ delete_product s n w = (set_product_db (Table (pre ++ post)) w, Ok true).
Proof.
  intros Hdb Hin. unfold product_keys in Hin. rewrite Hdb in Hin.
  cbn [stored] in Hin. apply in_map_iff in Hin. destruct Hin as (p & Hk & Hp).
  apply owned_by_key in Hk.
  pose proof (index_split (owned_by s (Some n)) rows) as Hi.
  destruct (index (owned_by s (Some n)) rows) as [|l ls] eqn:Hidx.
  { rewrite (proj1 (filter_none _ _) Hi p Hp) in Hk. discriminate. }
  destruct Hi as (pre & x & post & Hrows & Hpre & Hx & Hl).
  exists pre, x, post. repeat split; try assumption.
  unfold delete_product. run. rewrite Hdb. run.
  rewrite (owned_in_sellers s (Some n) rows p Hp Hk). run.
  destruct (filter (owned_by s (Some n)) rows) as [|q qs] eqn:Hf.
  { rewrite (proj1 (filter_none _ _) Hf p Hp) in Hk. discriminate. }
  rewrite Hidx. unfold index_0. run. cbn [to_csv]. subst l rows.
  now rewrite drop_app.
Qed.

(** Removing a row leaves the first row of any other selection in place. *)
Lemma filter_without {R} (mask : R -> bool) (pre : list R) (x : R)
    (post : list R) (q : R) (rest : list R) :
  filter mask (pre ++ x :: post) = q :: rest ->
  x <> q ->
  exists rest', filter mask (pre ++ post) = q :: rest'.
Proof.
  rewrite !filter_app. cbn [filter].
  destruct (filter mask pre) as [|q' t].
  - cbn [app]. destruct (mask x).
    + intros [= -> _] Hne. contradiction.
    + intros H _. eauto.
  - cbn [app]. intros [= -> _] _. eauto.
Qed.

(** X13: the owner can delete a product whatever its stock.  With unique
    (seller, name) pairs the name is free again afterwards, every readable
    product of another seller or name reads as before, and the user file is
    untouched.  The texts of the catalog are plain. *)
Theorem delete_product_frees_the_name (w : world) (rows : list ProductRow)
    (s n : string) :
  product_db w = Table rows ->
  In (s, n) (product_keys w) ->
  NoDup (product_keys w) ->
  plain_products w = true ->
  exists w',
    delete_product s n w = (w', Ok true)
    /\ ~ In (s, n) (product_keys w')
    /\ name_taken w' s n = false
    /\ user_db w' = user_db w
    /\ forall v q,
         get_product (Some v) None w = (w, Ok q) ->
         owned_by s (Some n) q = false ->
         get_product (Some v) None w' = (w', Ok q).
Proof.
  intros Hdb Hin Hnd _.
  destruct (delete_product_first w rows s n Hdb Hin)
    as (pre & x & post & -> & Hpre & Hx & Hdel).
  set (w' := set_product_db (Table (pre ++ post)) w) in *.
  assert (Hgone : ~ In (s, n) (product_keys w')).
  { unfold product_keys in Hnd |- *. rewrite Hdb in Hnd.
    unfold w'. cbn [set_product_db product_db stored] in Hnd |- *.
    rewrite map_app in Hnd |- *. cbn [map] in Hnd.
    apply owned_by_key in Hx. rewrite Hx in Hnd.
    now apply NoDup_remove_2 in Hnd. }
  exists w'. repeat split.
  - exact Hdel.
  - exact Hgone.
  - destruct (name_taken w' s n) eqn:Ht; [|reflexivity].
    apply name_taken_iff in Ht. contradiction.
  - intros v q Hget Hq.
    destruct (get_product_inv _ _ _ _ Hget)
      as (_ & rows' & rest & Hdb' & Hf & Hv & Hs).
    rewrite Hdb in Hdb'. injection Hdb' as <-.
    destruct (filter_without _ _ _ _ _ _ Hf) as [rest' Hf'].
    { intros ->. congruence. }
    apply get_product_found with (rows := pre ++ post) (rest := rest');
      [reflexivity | exact Hf' | exact Hv |].
    rewrite <- Hs. now apply sellerId_validators_ids.
Qed.

Lemma delete_product_frees_the_name_witness :
  exists w',
    delete_product "uqfp2h1jh8at5pvo" "pear" (stall 10 5 500) = (w', Ok true)
    /\ name_taken w' "uqfp2h1jh8at5pvo" "pear" = false.
Proof.
  destruct (delete_product_frees_the_name (stall 10 5 500) [pear 5 500]
              "uqfp2h1jh8at5pvo" "pear") as (w' & H1 & _ & H2 & _).
  - reflexivity.
  - cbn. auto.
  - cbn. repeat constructor; cbn; intuition discriminate.
  - reflexivity.
  - exists w'. split; assumption.
Defined.

(** ** Products that are not on file *)

Lemma unknown_productId (v : string) (rows : list ProductRow) :
  ~ In v (map productId rows) <-> filter (has_productId v) rows = [].
Proof.
  rewrite filter_none. split.
  - intros Hnot r Hr. apply String.eqb_neq. intros Heq. apply Hnot.
    rewrite <- Heq. now apply in_map.
  - intros H Hin. apply in_map_iff in Hin. destruct Hin as (r & Heq & Hr).
    specialize (H r Hr). apply String.eqb_neq in H. contradiction.
Qed.

(** X14: a product id that no stored row carries is reported by
    [get_product] as [ProductNotFoundException], by [take_product] as
    [ProductNotUpdatedException], and by [buy_product], once the buyer has
    passed the role and deposit checks, as [ProductNotFoundException]; no
    file is changed. *)
Theorem unknown_product_is_reported (w : world) (rows : list ProductRow)
    (v : string) :
  product_db w = Table rows ->
  ~ In v (product_ids w) ->
  get_product (Some v) None w
  = (w, Err (ExnFrom ProductNotFoundException "Username does not exist"
               (Exn IndexError "list index out of range")))
  /\ (forall n,
        take_product v n w
        = (w, Err (ExnFrom ProductNotUpdatedException
                     "Product could not be taken from Vending Machine"
                     (Exn IndexError "list index out of range"))))
  /\ (forall others u n usr,
        get_user (Some u) None w = (w, Ok usr) ->
        role usr <> UserEnum.SELLER -> deposit usr <> 0%Z ->
        buy_product_racing others u v n w
        = (w, Err (ExnFrom ProductNotFoundException "Product not found"
                     (ExnFrom ProductNotFoundException "Username does not exist"
                        (Exn IndexError "list index out of range"))))).
Proof.
  intros Hdb Hnot. unfold product_ids in Hnot. rewrite Hdb in Hnot.
  cbn [stored] in Hnot. apply unknown_productId in Hnot.
  assert (Hget : get_product (Some v) None w
                 = (w, Err (ExnFrom ProductNotFoundException
                              "Username does not exist"
                              (Exn IndexError "list index out of range")))).
  { unfold get_product. run. rewrite Hdb. run. now rewrite Hnot. }
  split; [exact Hget|]. split.
  - intros n. unfold take_product. run. rewrite Hdb. run. now rewrite Hnot.
  - intros others u n usr Hu Hrole Hdep.
    apply String.eqb_neq in Hrole. apply Z.eqb_neq in Hdep.
    unfold buy_product_racing, bind, try_except.
    now rewrite Hu, Hrole, Hdep, Hget.
Qed.

Lemma unknown_product_is_reported_witness :
  get_product (Some "1234") None (vending 10 5 500)
  = (vending 10 5 500,
     Err (ExnFrom ProductNotFoundException "Username does not exist"
            (Exn IndexError "list index out of range"))).
Proof.
  refine (proj1 (unknown_product_is_reported (vending 10 5 500) [apple 5 500]
                   "1234" _ _)).
  - reflexivity.
  - cbn. intros [H|[]]. discriminate.
Defined.

(** ** What a purchase does to the files *)

Lemma NoDup_map_unique {A B} (f : A -> B) (l : list A) (x y : A) :
  NoDup (map f l) -> In x l -> In y l -> f x = f y -> x = y.
Proof.
  induction l as [|a l IH]; [contradiction|].
  cbn [map]. intros Hnd Hx Hy Hf. inversion Hnd as [|b bs Hnot Hnd']; subst.
  destruct Hx as [->|Hx], Hy as [->|Hy].
  - reflexivity.
  - exfalso. apply Hnot. rewrite Hf. now apply in_map.
  - exfalso. apply Hnot. rewrite <- Hf. now apply in_map.
  - now apply IH.
Qed.

Lemma deduct_amount_not_buyer (w : world) (u : string)
    (rows : list UserRow) (usr : UserRow) (rest : list UserRow) (amount : Z) :
  user_db w = Table rows ->
  filter (has_username u) rows = usr :: rest ->
  role usr <> UserEnum.BUYER ->
  deduct_amount u amount w
  = (w, Err (ExnFrom UserNotUpdatedException
               "Amount could not be deducted from User account"
               (Exn UserNotBuyerException
                  "User deposit cannot be updated. User is not a buyer"))).
Proof.
  intros Hdb Hf Hr. apply String.eqb_neq in Hr.
  unfold deduct_amount. run.
  rewrite Hdb. run. rewrite Hf. run. now rewrite Hr.
Qed.

(** The purchase of the program running alone: either it fails and both
    files are as before, or it succeeds and the files are the debited user
    table and the decremented product table. *)
Lemma buy_product_outcome (w : world) (u v : string) (n : Z) :
  (exists e, buy_product u v n w = (w, Err e))
  \/ exists usr p urows urest prows prest,
       user_db w = Table urows
       /\ filter (has_username u) urows = usr :: urest
       /\ product_db w = Table prows
       /\ filter (has_productId v) prows = p :: prest
       /\ get_user (Some u) None w = (w, Ok usr)
       /\ get_product (Some v) None w = (w, Ok p)
       /\ role usr = UserEnum.BUYER
       /\ (n <= amountAvailable p)%Z
       /\ (cost p * n <= deposit usr)%Z
       /\ buy_product u v n w
          = (set_product_db (Table (decremented p n prows))
               (set_user_db (Table (debited usr p n urows)) w),
             Ok ((cost p * n)%Z,
                 set_amountAvailable (amountAvailable p - n) p,
                 make_change (deposit usr - cost p * n))).
Proof.
  destruct (try_get_user w u) as (ru & Hru & Hu').
  destruct ru as [usr|e].
  2:{ left. unfold buy_product, buy_product_racing, bind. rewrite Hru. eauto. }
  pose proof (Hu' usr eq_refl) as Hu.
  destruct (String.eqb (role usr) UserEnum.SELLER) eqn:Hrs.
  { left. unfold buy_product, buy_product_racing, bind. rewrite Hru, Hrs.
    run. eauto. }
  destruct (deposit usr =? 0)%Z eqn:Hd0.
  { left. unfold buy_product, buy_product_racing, bind. rewrite Hru, Hrs, Hd0.
    run. eauto. }
  destruct (try_get_product w v) as (rp & Hrp & Hp').
  destruct rp as [p|e].
  2:{ left. unfold buy_product, buy_product_racing, bind.
      rewrite Hru, Hrs, Hd0, Hrp. eauto. }
  pose proof (Hp' p eq_refl) as Hp.
  apply String.eqb_neq in Hrs. apply Z.eqb_neq in Hd0.
  unfold buy_product.
  rewrite (buy_product_checks _ w u v n usr p Hu Hrs Hd0 Hp).
  destruct (Z.ltb_spec (amountAvailable p) n); [left; eauto|].
  destruct (Z.ltb_spec (deposit usr) (cost p * n)); [left; eauto|].
  destruct (get_user_inv _ _ _ _ Hu) as (_ & urows & urest & Hudb & Huf & Huv).
  destruct (get_product_inv _ _ _ _ Hp)
    as (_ & prows & prest & Hpdb & Hpf & Hpv & Hs).
  pose proof (found_username _ _ _ _ Huf) as Hname.
  pose proof (found_productId _ _ _ _ Hpf) as Hid.
  destruct (string_dec (role usr) UserEnum.BUYER) as [Hb|Hnb].
  - destruct (Z.eq_dec (cost p * n) 0) as [Hz|Hz].
    + left. now apply commit_purchase_nothing_to_pay.
    + right. exists usr, p, urows, urest, prows, prest.
      repeat (split; [assumption|]).
      subst u v.
      exact (commit_purchase_ok w n usr p urows urest prows prest
               Hudb Huf Huv Hpdb Hpf Hpv Hs Hb Hz ltac:(lia) ltac:(lia)).
  - left. unfold commit_purchase, try_except, bind.
    rewrite <- Hname in Huf.
    rewrite (deduct_amount_not_buyer w _ urows usr urest _ Hudb Huf Hnb).
    rewrite (deposit_amount_not_buyer w _ urows usr urest Hudb Huf _ Hnb).
    eauto.
Qed.

(** X15: a purchase of [n >= 0] units by the program running alone, on
    files whose numbers are 64-bit integers, is all or nothing.  Either it
    raises and both files are exactly as before, or it returns
    [(cost * n, the decremented product, the greedy change of what is
    left)]; then the buyer's deposit has gone down by [cost * n], the
    product's stock by [n], neither below 0, and every other readable
    account and product reads as before. *)
Theorem buy_product_all_or_nothing (w : world) (u v : string) (n : Z) :
  (0 <= n)%Z ->
  within_int64 w ->
  (exists e, buy_product u v n w = (w, Err e))
  \/ exists usr p w',
       get_user (Some u) None w = (w, Ok usr)
       /\ get_product (Some v) None w = (w, Ok p)
       /\ (0 <= deposit usr - cost p * n <= deposit usr)%Z
       /\ (0 <= amountAvailable p - n <= amountAvailable p)%Z
       /\ buy_product u v n w
          = (w', Ok ((cost p * n)%Z,
                     set_amountAvailable (amountAvailable p - n) p,
                     makeChange_spec (deposit usr - cost p * n)))
       /\ get_user (Some u) None w'
          = (w', Ok (set_deposit (deposit usr - cost p * n) usr))
       /\ get_product (Some v) None w'
          = (w', Ok (set_amountAvailable (amountAvailable p - n) p))
       /\ (forall u' usr',
             u' <> u ->
             get_user (Some u') None w = (w, Ok usr') ->
             get_user (Some u') None w' = (w', Ok usr'))
       /\ (forall v' q,
             v' <> v ->
             get_product (Some v') None w = (w, Ok q) ->
             get_product (Some v') None w' = (w', Ok q)).
Proof.
  intros Hn _.
  destruct (buy_product_outcome w u v n)
    as [Hfail|(usr & p & urows & urest & prows & prest & Hudb & Huf & Hpdb
               & Hpf & Hu & Hp & Hb & Hstock & Hfunds & Hbuy)];
    [left; exact Hfail|right].
  destruct (get_user_inv _ _ _ _ Hu) as (_ & urows' & urest' & Hudb' & _ & Huv).
  destruct (get_product_inv _ _ _ _ Hp)
    as (_ & prows' & prest' & Hpdb' & _ & Hpv & Hs).
  pose proof (field_errors_cost _ Hpv) as Hcost.
  rewrite (make_change_greedy (deposit usr - cost p * n)) in Hbuy by lia.
  pose proof (found_username _ _ _ _ Huf) as Hname.
  pose proof (found_productId _ _ _ _ Hpf) as Hid.
  set (w' := set_product_db (Table (decremented p n prows))
               (set_user_db (Table (debited usr p n urows)) w)) in *.
  assert (Hids : user_ids (user_db w') = user_ids (user_db w)).
  { unfold w'. cbn [set_product_db set_user_db user_db user_ids].
    rewrite Hudb. cbn [user_ids]. unfold debited.
    now rewrite map_id_update_deposit. }
  exists usr, p, w'. repeat split; try assumption; try nia.
  - subst u.
    exact (after_purchase_user w n usr p urows urest prows Huf Huv Hfunds).
  - subst v.
    exact (after_purchase_product w n usr p urows prows prest Hudb Hpf Hpv Hs
             Hstock).
  - intros u' usr' Hne Hget.
    destruct (get_user_inv _ _ _ _ Hget) as (_ & rows & rest & Hdb & Hf & Hv).
    rewrite Hudb in Hdb. injection Hdb as <-.
    apply get_user_found
      with (rows := debited usr p n urows)
           (rest := map (fun r => if has_username (username usr) r
                                  then set_deposit (deposit r - cost p * n) r
                                  else r) rest);
      [reflexivity | | exact Hv].
    unfold debited, update_deposit.
    rewrite (filter_map_selected (has_username (username usr))
               (has_username u')
               (fun r => set_deposit (deposit r - cost p * n) r) urows)
      by reflexivity.
    rewrite Hf. cbn [map].
    replace (has_username (username usr) usr') with false; [reflexivity|].
    symmetry. apply String.eqb_neq.
    rewrite (found_username _ _ _ _ Hf). congruence.
  - intros v' q Hne Hget.
    destruct (get_product_inv _ _ _ _ Hget)
      as (_ & rows & rest & Hdb & Hf & Hv & Hsq).
    rewrite Hpdb in Hdb. injection Hdb as <-.
    apply get_product_found
      with (rows := decremented p n prows)
           (rest := map (fun r => if has_productId (productId p) r
                                  then set_amountAvailable (amountAvailable r - n) r
                                  else r) rest);
      [reflexivity | | exact Hv |].
    + unfold decremented, decrement_amount.
      rewrite (filter_map_selected (has_productId (productId p))
                 (has_productId v')
                 (fun r => set_amountAvailable (amountAvailable r - n) r) prows)
        by reflexivity.
      rewrite Hf. cbn [map].
      replace (has_productId (productId p) q) with false; [reflexivity|].
      symmetry. apply String.eqb_neq.
      rewrite (found_productId _ _ _ _ Hf). congruence.
    + rewrite <- Hsq. now apply sellerId_validators_ids.
Qed.

Lemma buy_product_all_or_nothing_witness :
  (exists e,
     buy_product "Johny" "81prtrvd17363a5n" 1 (vending 10 5 500)
     = (vending 10 5 500, Err e))
  \/ exists usr p w',
       get_user (Some "Johny") None (vending 10 5 500)
       = (vending 10 5 500, Ok usr)
       /\ get_product (Some "81prtrvd17363a5n") None (vending 10 5 500)
          = (vending 10 5 500, Ok p)
       /\ buy_product "Johny" "81prtrvd17363a5n" 1 (vending 10 5 500)
          = (w', Ok ((cost p * 1)%Z,
                     set_amountAvailable (amountAvailable p - 1) p,
                     makeChange_spec (deposit usr - cost p * 1)))
       /\ get_user (Some "Johny") None w'
          = (w', Ok (set_deposit (deposit usr - cost p * 1) usr)).
Proof.
  destruct (buy_product_all_or_nothing (vending 10 5 500) "Johny"
              "81prtrvd17363a5n" 1)
    as [H|(usr & p & w' & H1 & H2 & _ & _ & H3 & H4 & _)].
  - lia.
  - unfold within_int64, int64, int64_min, int64_max. cbn.
    split; repeat constructor; cbn; lia.
  - left. exact H.
  - right. exists usr, p, w'. repeat split; assumption.
Defined.

(** ** Consistency of the files *)

Section Consistency.

Variable w : world.
Hypothesis ok : consistent w.

Lemma consistent_update_deposit (rows : list UserRow) (u : string)
    (f : Z -> Z) :
  user_db w = Table rows ->
  (forall r, In r rows -> has_username u r = true ->
             (0 <= f (deposit r) <= int64_max)%Z) ->
  forall w',
    user_db w' = Table (update_deposit u f rows) ->
    stored (product_db w') = stored (product_db w) ->
    consistent w'.
Proof.
  intros Hdb Hf w' Hu' Hp'. destruct ok as (Hnu & Hnp & Hd & Ha).
  unfold consistent, usernames, product_ids in *.
  rewrite Hu', Hp'. rewrite Hdb in Hnu, Hd. cbn [stored] in *.
  repeat split; try assumption.
  - replace (map username (update_deposit u f rows)) with (map username rows);
      [assumption|].
    unfold update_deposit. rewrite map_map. apply map_ext.
    intros r. now destruct (has_username u r).
  - unfold update_deposit. apply Forall_forall. intros r' Hr'.
    apply in_map_iff in Hr'. destruct Hr' as (r & <- & Hr).
    destruct (has_username u r) eqn:Hur.
    + cbn [set_deposit deposit]. now apply Hf.
    + rewrite Forall_forall in Hd. now apply Hd.
Qed.

Lemma consistent_decrement_amount (rows : list ProductRow) (v : string)
    (n : Z) :
  product_db w = Table rows ->
  (forall r, In r rows -> has_productId v r = true ->
             (0 <= amountAvailable r - n <= int64_max)%Z) ->
  forall w',
    product_db w' = Table (decrement_amount v n rows) ->
    stored (user_db w') = stored (user_db w) ->
    consistent w'.
Proof.
  intros Hdb Hf w' Hp' Hu'. destruct ok as (Hnu & Hnp & Hd & Ha).
  unfold consistent, usernames, product_ids in *.
  rewrite Hu', Hp'. rewrite Hdb in Hnp, Ha. cbn [stored] in *.
  repeat split; try assumption.
  - replace (map productId (decrement_amount v n rows))
      with (map productId rows); [assumption|].
    unfold decrement_amount. rewrite map_map. apply map_ext.
    intros r. now destruct (has_productId v r).
  - unfold decrement_amount. apply Forall_forall. intros r' Hr'.
    apply in_map_iff in Hr'. destruct Hr' as (r & <- & Hr).
    destruct (has_productId v r) eqn:Hvr.
    + cbn [set_amountAvailable amountAvailable]. now apply Hf.
    + rewrite Forall_forall in Ha. now apply Ha.
Qed.

(** With unique keys the rows selected by a key are the first one. *)
Lemma the_user (rows : list UserRow) (u : string) (usr : UserRow)
    (rest : list UserRow) (r : UserRow) :
  user_db w = Table rows ->
  filter (has_username u) rows = usr :: rest ->
  In r rows -> has_username u r = true -> r = usr.
Proof.
  intros Hdb Hf Hr Hur. destruct ok as (Hnu & _).
  unfold usernames in Hnu. rewrite Hdb in Hnu. cbn [stored] in Hnu.
  assert (Hin : In usr (filter (has_username u) rows)) by (rewrite Hf; now left).
  apply filter_In in Hin. destruct Hin as [Hin Hu].
  apply (NoDup_map_unique username rows r usr Hnu Hr Hin).
  apply has_username_eq in Hur, Hu. congruence.
Qed.

Lemma the_product (rows : list ProductRow) (v : string) (p : ProductRow)
    (rest : list ProductRow) (r : ProductRow) :
  product_db w = Table rows ->
  filter (has_productId v) rows = p :: rest ->
  In r rows -> has_productId v r = true -> r = p.
Proof.
  intros Hdb Hf Hr Hvr. destruct ok as (_ & Hnp & _).
  unfold product_ids in Hnp. rewrite Hdb in Hnp. cbn [stored] in Hnp.
  assert (Hin : In p (filter (has_productId v) rows)) by (rewrite Hf; now left).
  apply filter_In in Hin. destruct Hin as [Hin Hv].
  apply (NoDup_map_unique productId rows r p Hnp Hr Hin).
  apply has_productId_eq in Hvr, Hv. congruence.
Qed.

Lemma consistent_after_deposit_amount (u : string) (coin : Z) :
  (forall r, In r (stored (user_db w)) -> username r = u ->
             (deposit r + coin <= int64_max)%Z) ->
  consistent (fst (deposit_amount u coin w)).
Proof.
  intros Hfits.
  unfold deposit_amount, UserModel. run.
  destruct (user_db w) as [|rows] eqn:Hdb; run; [exact ok|].
  destruct (filter (has_username u) rows) as [|r rest] eqn:Hf; run;
    [exact ok|].
  destruct (String.eqb (role r) UserEnum.BUYER); run; [|exact ok].
  destruct (coin =? 0)%Z eqn:Hz; cbn [negb]; run.
  - cbn [to_csv]. rewrite (set_user_db_same _ _ Hdb).
    rewrite Hf. run. now destruct (user_errors r).
  - destruct (allowed_coin coin) eqn:Hc; run; [|exact ok].
    assert (Hpos : (0 < coin)%Z).
    { apply allowed_coin_In in Hc. cbn in Hc.
      repeat (destruct Hc as [<-|Hc]; [lia|]). contradiction. }
    cbn [to_csv].
    assert (Hw : consistent
                   (set_user_db
                      (Table (update_deposit u (fun d => (d + coin)%Z) rows)) w)).
    { apply (consistent_update_deposit rows u (fun d => (d + coin)%Z) Hdb);
        [|reflexivity|reflexivity].
      intros r' Hr' Hur'. destruct ok as (_ & _ & Hd & _).
      rewrite Hdb in Hd. cbn [stored] in Hd, Hfits.
      rewrite Forall_forall in Hd.
      specialize (Hd r' Hr'). cbn beta in Hd.
      apply has_username_eq in Hur'.
      specialize (Hfits r' Hr' Hur'). lia. }
    destruct (filter (has_username u)
                (update_deposit u (fun d => (d + coin)%Z) rows)) as [|r' rest'];
      run; [exact Hw|].
    now destruct (user_errors r').
Qed.

Lemma consistent_after_take_product (v : string) (n : Z) :
  (0 <= n)%Z ->
  consistent (fst (take_product v n w)).
Proof.
  intros Hn.
  unfold take_product. run.
  destruct (product_db w) as [|rows] eqn:Hdb; run; [exact ok|].
  destruct (filter (has_productId v) rows) as [|p rest] eqn:Hf; run;
    [exact ok|].
  destruct (Z.ltb_spec (amountAvailable p) n); run; [exact ok|].
  cbn [to_csv].
  assert (Hw : consistent
                 (set_product_db (Table (decrement_amount v n rows)) w)).
  { apply (consistent_decrement_amount rows v n Hdb);
      [|reflexivity|reflexivity].
    intros r Hr Hvr. rewrite (the_product rows v p rest r Hdb Hf Hr Hvr).
    assert (Hp : In p rows).
    { assert (Hin : In p (filter (has_productId v) rows))
        by (rewrite Hf; now left).
      now apply filter_In in Hin. }
    destruct ok as (_ & _ & _ & Ha). rewrite Hdb in Ha. cbn [stored] in Ha.
    rewrite Forall_forall in Ha. specialize (Ha p Hp). cbn beta in Ha. lia. }
  destruct (filter (has_productId v) (decrement_amount v n rows))
    as [|p' rest']; run; [exact Hw|].
  pose proof (ProductModel_pure p'
                (set_product_db (Table (decrement_amount v n rows)) w)) as Hpure.
  destruct (ProductModel p'
              (set_product_db (Table (decrement_amount v n rows)) w))
    as [w2 [d|e]]; cbn [fst] in Hpure |- *; now subst w2.
Qed.

End Consistency.

Lemma consistent_after_buy_product (w : world) (u v : string) (n : Z) :
  consistent w -> (0 <= n)%Z -> consistent (fst (buy_product u v n w)).
Proof.
  intros ok Hn.
  destruct (buy_product_outcome w u v n)
    as [(e & ->)|(usr & p & urows & urest & prows & prest & Hudb & Huf & Hpdb
                  & Hpf & Hu & Hp & Hb & Hstock & Hfunds & ->)];
    [exact ok|].
  cbn [fst].
  destruct (get_product_inv _ _ _ _ Hp) as (_ & _ & _ & _ & _ & Hpv & _).
  pose proof (field_errors_cost _ Hpv) as Hcost.
  assert (Hdmax : (deposit usr <= int64_max)%Z).
  { assert (Hin : In usr (filter (has_username u) urows))
      by (rewrite Huf; now left).
    apply filter_In in Hin. destruct Hin as [Hin _].
    destruct ok as (_ & _ & Hd & _). rewrite Hudb in Hd. cbn [stored] in Hd.
    rewrite Forall_forall in Hd. specialize (Hd usr Hin). cbn beta in Hd. lia. }
  assert (Hsmax : (amountAvailable p <= int64_max)%Z).
  { assert (Hin : In p (filter (has_productId v) prows))
      by (rewrite Hpf; now left).
    apply filter_In in Hin. destruct Hin as [Hin _].
    destruct ok as (_ & _ & _ & Ha). rewrite Hpdb in Ha. cbn [stored] in Ha.
    rewrite Forall_forall in Ha. specialize (Ha p Hin). cbn beta in Ha. lia. }
  assert (Hw1 : consistent (set_user_db (Table (debited usr p n urows)) w)).
  { apply (consistent_update_deposit w ok urows (username usr)
             (fun d => (d - cost p * n)%Z) Hudb); [|reflexivity|reflexivity].
    intros r Hr Hur.
    rewrite <- (found_username _ _ _ _ Huf) in Huf.
    rewrite (the_user w ok urows (username usr) usr urest r Hudb Huf Hr Hur).
    nia. }
  apply (consistent_decrement_amount _ Hw1 prows (productId p) n Hpdb);
    [|reflexivity|reflexivity].
  intros r Hr Hvr.
  rewrite <- (found_productId _ _ _ _ Hpf) in Hpf.
  rewrite (the_product w ok prows (productId p) p prest r Hpdb Hpf Hr Hvr).
  lia.
Qed.

(** X16: the program running alone keeps the files consistent.  If
    usernames and product ids are unique and every deposit and every stock
    lies between 0 and the largest 64-bit integer, the same holds after
    [deposit_amount], as long as the deposit of that user with the amount
    added is not beyond the largest 64-bit integer, and after
    [take_product] and [buy_product] for a quantity that is not negative,
    whether they return or raise. *)
Theorem purchases_keep_the_files_consistent (w : world) :
  consistent w ->
  (forall u coin,
      (forall r, In r (stored (user_db w)) -> username r = u ->
                 (deposit r + coin <= int64_max)%Z) ->
      consistent (fst (deposit_amount u coin w)))
  /\ (forall v n, (0 <= n)%Z -> consistent (fst (take_product v n w)))
  /\ (forall u v n, (0 <= n)%Z -> consistent (fst (buy_product u v n w))).
Proof.
  intros ok. split; [|split].
  - intros u coin. now apply consistent_after_deposit_amount.
  - intros v n. now apply consistent_after_take_product.
  - intros u v n. now apply consistent_after_buy_product.
Qed.

Lemma purchases_keep_the_files_consistent_witness :
  consistent (fst (buy_product "Johny" "81prtrvd17363a5n" 1 (vending 10 5 500)))
  /\ consistent (fst (deposit_amount "Johny" 100 (vending 10 5 500))).
Proof.
  assert (ok : consistent (vending 10 5 500)).
  { unfold consistent, int64_max. cbn.
    repeat split; repeat constructor; cbn; try lia; intuition discriminate. }
  split.
  - refine (proj2 (proj2 (purchases_keep_the_files_consistent (vending 10 5 500) ok))
              "Johny" "81prtrvd17363a5n" 1 _).
    lia.
  - refine (proj1 (purchases_keep_the_files_consistent (vending 10 5 500) ok)
              "Johny" 100 _).
    unfold int64_max. cbn. intros r [<-|[<-|[]]] _; cbn; lia.
Defined.

(** ** The change *)

Section Change.

Local Open Scope Z_scope.

Lemma greedy_coins (coins : list Z) (amount : Z) :
  Forall (fun c => In c coins) (greedy coins amount).
Proof.
  revert amount. induction coins as [|d coins IH]; intros amount;
    cbn [greedy]; [constructor|].
  apply Forall_app. split.
  - apply Forall_forall. intros c Hc. apply repeat_spec in Hc. subst c.
    now left.
  - eapply Forall_impl; [|apply IH]. intros c Hc. now right.
Qed.

Lemma greedy_descending (coins : list Z) :
  StronglySorted Z.gt coins ->
  forall amount, StronglySorted Z.ge (greedy coins amount).
Proof.
  induction 1 as [|d coins Hs IH Hd]; intros amount; cbn [greedy];
    [constructor|].
  assert (Hrest : Forall (fun c => d >= c) (greedy coins (amount - d * (amount / d)))).
  { eapply Forall_impl; [|apply greedy_coins]. intros c Hc.
    rewrite Forall_forall in Hd. specialize (Hd c Hc). lia. }
  induction (Z.to_nat (amount / d)) as [|k IHk]; cbn [repeat app].
  - apply IH.
  - constructor; [exact IHk|].
    apply Forall_app. split; [|exact Hrest].
    apply Forall_forall. intros c Hc. apply repeat_spec in Hc. lia.
Qed.

Lemma make_change_nothing (n : Z) : n <= 0 -> make_change n = [].
Proof.
  intros Hn.
  assert (E : (n >? 0) = false) by (destruct (Z.gtb_spec n 0); [lia|reflexivity]).
  unfold make_change. cbn [fold_left]. unfold change_step.
  now rewrite !E.
Qed.

Lemma length_greedy (n : Z) :
  0 <= n ->
  Z.of_nat (List.length (makeChange_spec n))
  = n / 100 + (n mod 100) / 50 + ((n mod 100) mod 50) / 20
    + (((n mod 100) mod 50) mod 20) / 10
    + ((((n mod 100) mod 50) mod 20) mod 10) / 5.
Proof.
  intros Hn. unfold makeChange_spec. cbn [greedy].
  rewrite !length_app, !repeat_length. cbn [List.length].
  rewrite <- !Z.mod_eq by lia.
  rewrite !Nat2Z.inj_add, !Z2Nat.id; [lia| | | | |];
    apply Z.div_pos; try lia;
    repeat (apply Z.mod_pos_bound || apply Z.lt_le_incl); lia.
Qed.

(** A handful of coins is so many coins of each denomination. *)
Lemma coins_counted (coins : list Z) :
  Forall (fun c => In c [100; 50; 20; 10; 5]) coins ->
  exists a b c d e,
    0 <= a /\ 0 <= b /\ 0 <= c /\ 0 <= d /\ 0 <= e
    /\ total coins = 100 * a + 50 * b + 20 * c + 10 * d + 5 * e
    /\ Z.of_nat (List.length coins) = a + b + c + d + e.
Proof.
  induction 1 as [|x coins Hx _ IH].
  - exists 0, 0, 0, 0, 0. cbn. lia.
  - destruct IH as (a & b & c & d & e & Ha & Hb & Hc & Hd & He & Ht & Hl).
    cbn [total fold_right List.length]. fold (total coins).
    rewrite Nat2Z.inj_succ.
    cbn in Hx. destruct Hx as [<-|[<-|[<-|[<-|[<-|[]]]]]].
    + exists (a + 1), b, c, d, e. lia.
    + exists a, (b + 1), c, d, e. lia.
    + exists a, b, (c + 1), d, e. lia.
    + exists a, b, c, (d + 1), e. lia.
    + exists a, b, c, d, (e + 1). lia.
Qed.

End Change.

(** X17: the change consists of coins of 100, 50, 20, 10 and 5 only,
    handed out largest first, and of no coin at all when the amount is zero
    or negative. *)
Theorem make_change_hands_out_coins (n : Z) :
  Forall (fun c => In c [100; 50; 20; 10; 5]%Z) (make_change n)
  /\ StronglySorted Z.ge (make_change n)
  /\ ((n <= 0)%Z -> make_change n = []).
Proof.
  destruct (Z.le_gt_cases n 0) as [Hn|Hn].
  - rewrite (make_change_nothing n Hn). repeat split; constructor.
  - rewrite make_change_greedy by lia. unfold makeChange_spec.
    split; [apply greedy_coins|]. split.
    + apply greedy_descending.
      repeat (constructor; [|repeat constructor; lia]). constructor.
    + lia.
Qed.

Lemma make_change_hands_out_coins_witness :
  make_change (-5) = [].
Proof.
  apply (proj2 (proj2 (make_change_hands_out_coins (-5)))). lia.
Defined.

(** X18: the change uses as few coins as possible: no collection of coins
    of 100, 50, 20, 10 and 5 that adds up to [n] is smaller than
    [make_change n]. *)
Theorem make_change_is_optimal (n : Z) (coins : list Z) :
  Forall (fun c => In c [100; 50; 20; 10; 5]%Z) coins ->
  total coins = n ->
  (List.length (make_change n) <= List.length coins)%nat.
Proof.
  intros Hcoins Htotal.
  destruct (coins_counted coins Hcoins)
    as (a & b & c & d & e & Ha & Hb & Hc & Hd & He & Ht & Hl).
  assert (Hn : (0 <= n)%Z) by lia.
  apply Nat2Z.inj_le. rewrite Hl.
  rewrite make_change_greedy by assumption.
  rewrite (length_greedy n Hn).
  rewrite Htotal in Ht. clear Hcoins Htotal Hl.
  Z.div_mod_to_equations. lia.
Qed.

Lemma make_change_is_optimal_witness :
  (List.length (make_change 60) <= List.length [20; 20; 20]%Z)%nat.
Proof.
  apply make_change_is_optimal.
  - repeat (apply Forall_cons; [cbn; auto 10|]). apply Forall_nil.
  - reflexivity.
Defined.

(** ** Deposits in a row *)

Lemma set_deposit_twice (usr : UserRow) (a b : Z) :
  set_deposit b (set_deposit a usr) = set_deposit b usr.
Proof. reflexivity. Qed.

Lemma set_deposit_same (usr : UserRow) : set_deposit (deposit usr) usr = usr.
Proof. now destruct usr. Qed.

Lemma deposit_amount_coin_lookup (w : world) (u : string) (usr : UserRow)
    (coin : Z) :
  get_user (Some u) None w = (w, Ok usr) ->
  role usr = UserEnum.BUYER ->
  allowed_coin coin = true ->
  exists w',
    deposit_amount u coin w = (w', Ok (set_deposit (deposit usr + coin) usr))
    /\ get_user (Some u) None w'
       = (w', Ok (set_deposit (deposit usr + coin) usr)).
Proof.
  intros Hu Hr Hc.
  destruct (get_user_inv _ _ _ _ Hu) as (_ & rows & rest & Hdb & Hf & Hv).
  rewrite (deposit_amount_coin w u rows usr rest Hdb Hf coin Hr Hv Hc).
  eexists; split; [reflexivity|].
  assert (Hpos : (0 < coin)%Z).
  { apply allowed_coin_In in Hc. cbn in Hc.
    repeat (destruct Hc as [<-|Hc]; [lia|]). contradiction. }
  apply get_user_found
    with (rows := update_deposit u (fun d => (d + coin)%Z) rows)
         (rest := map (fun r => set_deposit (deposit r + coin) r) rest).
  - reflexivity.
  - now rewrite filter_update_deposit, Hf.
  - apply user_errors_set_deposit; [assumption|].
    apply user_errors_valid in Hv. lia.
Qed.

(** X19: deposits add up.  When an existing buyer inserts any sequence of
    coins of 5, 10, 20, 50 and 100, one call after the other, every call
    succeeds and the stored deposit ends up higher by exactly their sum, as
    long as that is not beyond the largest 64-bit integer. *)
Theorem deposits_add_up (coins : list Z) :
  Forall (fun c => In c [5; 10; 20; 50; 100]%Z) coins ->
  forall (w : world) (u : string) (usr : UserRow),
    get_user (Some u) None w = (w, Ok usr) ->
    role usr = UserEnum.BUYER ->
    (deposit usr + total coins <= int64_max)%Z ->
    exists w',
      deposit_all u coins w = (w', Ok tt)
      /\ get_user (Some u) None w'
         = (w', Ok (set_deposit (deposit usr + total coins) usr)).
Proof.
  induction 1 as [|c coins Hc _ IH]; intros w u usr Hu Hr Hfits.
  - exists w. split; [reflexivity|]. cbn [total fold_right].
    now rewrite Z.add_0_r, set_deposit_same.
  - apply allowed_coin_In in Hc.
    destruct (deposit_amount_coin_lookup w u usr c Hu Hr Hc) as (w1 & Hd & Hu1).
    destruct (IH w1 u _ Hu1 Hr) as (w' & Hall & Hu').
    { cbn [set_deposit deposit]. cbn [total fold_right] in Hfits.
      fold (total coins) in Hfits. lia. }
    exists w'. split.
    + cbn [deposit_all]. unfold bind. now rewrite Hd.
    + rewrite Hu'. cbn [total fold_right set_deposit deposit].
      fold (total coins). rewrite set_deposit_twice.
      now rewrite Z.add_assoc.
Qed.

Lemma deposits_add_up_witness :
  exists w',
    deposit_all "Johny" [5; 10; 20; 5; 10]%Z (vending 0 5 500) = (w', Ok tt)
    /\ get_user (Some "Johny") None w' = (w', Ok (Johny 50)).
Proof.
  refine (deposits_add_up [5; 10; 20; 5; 10]%Z _ (vending 0 5 500) "Johny"
            (Johny 0) _ _ _).
  - repeat (apply Forall_cons; [cbn; auto 10|]). apply Forall_nil.
  - reflexivity.
  - reflexivity.
  - unfold int64_max. cbn. lia.
Defined.

(** ** The HTTP layer *)


(** X20: authentication compares the password sent with the stored one,
    character by character.  For an account on file the request is let
    through exactly when the two are equal; otherwise, and for a username
    that is not on file, it is answered with 401, and the handler behind
    the dependency does not run.  Nothing is written either way. *)
Theorem authentication_compares_stored_password (w : world) (u : string)
    (usr : UserRow) (pw : string) :
  get_user (Some u) None w = (w, Ok usr) ->
  (pw = password usr ->
   api.get_current_username (api.mkCredentials u pw) w = (w, api.Returned u))
  /\ (pw <> password usr ->
      api.get_current_username (api.mkCredentials u pw) w
      = (w, api.HTTPException 401 "Incorrect password"
              [("WWW-Authenticate", "Basic")])
      /\ forall (B : Type) (handler : string -> api.endpoint B),
           api.Depends (api.get_current_username (api.mkCredentials u pw))
             handler w
           = (w, api.HTTPException 401 "Incorrect password"
                   [("WWW-Authenticate", "Basic")]))
  /\ (forall u' rows,
        user_db w = Table rows -> ~ In u' (usernames w) ->
        api.get_current_username (api.mkCredentials u' pw) w
        = (w, api.HTTPException 401 "Username does not exist"
                [("WWW-Authenticate", "Basic")])).
Proof.
  intros Hu. split; [|split].
  - intros ->. unfold api.get_current_username, api.try_http.
    cbn [api.username api.password]. rewrite Hu.
    unfold verify_password, hash_password. now rewrite String.eqb_refl.
  - intros Hne.
    assert (H : api.get_current_username (api.mkCredentials u pw) w
                = (w, api.HTTPException 401 "Incorrect password"
                        [("WWW-Authenticate", "Basic")])).
    { unfold api.get_current_username, api.try_http.
      cbn [api.username api.password]. rewrite Hu.
      unfold verify_password, hash_password.
      apply String.eqb_neq in Hne. now rewrite Hne. }
    split; [exact H|]. intros B handler. unfold api.Depends. now rewrite H.
  - intros u' rows Hdb Hnot.
    unfold usernames in Hnot. rewrite Hdb in Hnot. cbn [stored] in Hnot.
    apply unknown_username in Hnot.
    unfold api.get_current_username, api.try_http.
    cbn [api.username api.password].
    now rewrite (get_user_missing w rows u' Hdb Hnot).
Qed.

Lemma authentication_compares_stored_password_witness :
  api.get_current_username (api.mkCredentials "Johny" "abcd") (vending 10 5 500)
  = (vending 10 5 500,
     api.HTTPException 401 "Incorrect password" [("WWW-Authenticate", "Basic")]).
Proof.
  refine (proj1 (proj1 (proj2 (authentication_compares_stored_password
                                 (vending 10 5 500) "Johny" (Johny 10) "abcd" _))
                   _)).
  - reflexivity.
  - discriminate.
Defined.



(** X22: a changed password takes effect at once: after
    [update_password], authentication accepts the new password and answers
    401 to every other one, the old password included.  The texts on file
    and the new password are plain. *)
Theorem new_password_takes_effect (w : world) (u : string) (usr : UserRow)
    (pw : string) :
  get_user (Some u) None w = (w, Ok usr) ->
  plain_users w = true ->
  plain pw = true ->
  exists w',
    update_password u (Some pw) w = (w', Ok (set_password pw usr))
    /\ api.get_current_username (api.mkCredentials u pw) w'
       = (w', api.Returned u)
    /\ forall other,
         other <> pw ->
         api.get_current_username (api.mkCredentials u other) w'
         = (w', api.HTTPException 401 "Incorrect password"
                  [("WWW-Authenticate", "Basic")]).
Proof.
  intros Hu _ Hpw. apply plain_nonempty in Hpw.
  destruct (update_password_run w u usr pw Hu Hpw)
    as (_ & w' & Hup & Hget & _).
  exists w'. split; [exact Hup|]. split.
  - unfold api.get_current_username, api.try_http.
    cbn [api.username api.password]. rewrite Hget.
    unfold verify_password, hash_password. cbn [set_password password].
    now rewrite String.eqb_refl.
  - intros other Hne. unfold api.get_current_username, api.try_http.
    cbn [api.username api.password]. rewrite Hget.
    unfold verify_password, hash_password. cbn [set_password password].
    apply String.eqb_neq in Hne. now rewrite Hne.
Qed.

Lemma new_password_takes_effect_witness :
  exists w',
    update_password "Johny" (Some "abcd") (vending 10 5 500)
    = (w', Ok (set_password "abcd" (Johny 10)))
    /\ api.get_current_username (api.mkCredentials "Johny" "abcd") w'
       = (w', api.Returned "Johny")
    /\ api.get_current_username (api.mkCredentials "Johny" "abcde") w'
       = (w', api.HTTPException 401 "Incorrect password"
                [("WWW-Authenticate", "Basic")]).
Proof.
  destruct (new_password_takes_effect (vending 10 5 500) "Johny" (Johny 10)
              "abcd" eq_refl eq_refl eq_refl) as (w' & H1 & H2 & H3).
  exists w'. split; [exact H1|]. split; [exact H2|].
  apply H3. discriminate.
Defined.

(** X23: [POST /deposit] for an existing buyer.  A coin of 5, 10, 20, 50 or
    100 is answered with 200 and added to the deposit, as long as the new
    deposit is not beyond the largest 64-bit integer; the amount 0 is
    answered with 200 as well, and nothing changes; any other amount is
    answered with 400 and the message of the wrapping exception, and
    nothing changes. *)
Theorem deposit_endpoint_answers (w : world) (u : string) (usr : UserRow)
    (amount : Z) :
  get_user (Some u) None w = (w, Ok usr) ->
  role usr = UserEnum.BUYER ->
  (amount = 0%Z ->
   api.deposit_to_user_account (api.mkUserDeposit amount) u w
   = (w, api.Returned
           (api.mkResponse [("message", "Deposit of 0 successfully added")]
              200 "application/json")))
  /\ (amount <> 0%Z -> ~ In amount [5; 10; 20; 50; 100]%Z ->
      api.deposit_to_user_account (api.mkUserDeposit amount) u w
      = (w, api.HTTPException 400
              "Amount could not be deposited into User account"
              [("WWW-Authenticate", "Basic")]))
  /\ (In amount [5; 10; 20; 50; 100]%Z ->
      (deposit usr + amount <= int64_max)%Z ->
      exists w',
        api.deposit_to_user_account (api.mkUserDeposit amount) u w
        = (w', api.Returned
                 (api.mkResponse
                    [("message",
                      ("Deposit of " ++ decimal amount
                       ++ " successfully added")%string)]
                    200 "application/json"))
        /\ get_user (Some u) None w'
           = (w', Ok (set_deposit (deposit usr + amount) usr))).
Proof.
  intros Hu Hr.
  destruct (get_user_inv _ _ _ _ Hu) as (_ & rows & rest & Hdb & Hf & Hv).
  unfold api.deposit_to_user_account, api.try_http, bind.
  cbn [api.deposit]. split; [|split].
  - intros ->.
    now rewrite (deposit_amount_zero w u rows usr rest Hdb Hf Hr Hv).
  - intros Hz Hnot.
    rewrite (deposit_amount_rejected w u rows usr rest Hdb Hf amount Hr Hz);
      [reflexivity|].
    destruct (allowed_coin amount) eqn:Hc; [|reflexivity].
    apply allowed_coin_In in Hc. contradiction.
  - intros Hin _. apply allowed_coin_In in Hin.
    destruct (deposit_amount_coin_lookup w u usr amount Hu Hr Hin)
      as (w' & Hd & Hu').
    exists w'. rewrite Hd. split; [reflexivity|exact Hu'].
Qed.

Lemma deposit_endpoint_answers_witness :
  api.deposit_to_user_account (api.mkUserDeposit 3) "Johny" (vending 10 5 500)
  = (vending 10 5 500,
     api.HTTPException 400 "Amount could not be deposited into User account"
       [("WWW-Authenticate", "Basic")])
  /\ exists w',
       api.deposit_to_user_account (api.mkUserDeposit 50) "Johny"
         (vending 10 5 500)
       = (w', api.Returned
                (api.mkResponse
                   [("message", "Deposit of 50 successfully added")]
                   200 "application/json"))
       /\ get_user (Some "Johny") None w' = (w', Ok (Johny 60)).
Proof.
  split.
  - refine (proj1 (proj2 (deposit_endpoint_answers (vending 10 5 500) "Johny"
                            (Johny 10) 3 _ _)) _ _).
    + reflexivity.
    + reflexivity.
    + lia.
    + cbn. lia.
  - refine (proj2 (proj2 (deposit_endpoint_answers (vending 10 5 500) "Johny"
                            (Johny 10) 50 _ _)) _ _).
    + reflexivity.
    + reflexivity.
    + cbn. auto 10.
    + unfold int64_max. cbn. lia.
Defined.

(** ** The order of the checks *)

(** X24: the role check comes first.  A seller who tries to buy gets
    [UserNotBuyerException], whatever the deposit column holds, whether or
    not the product exists, and for any quantity; nothing is written. *)
Theorem seller_cannot_buy (others : world -> world) (w : world)
    (u v : string) (n : Z) (usr : UserRow) :
  get_user (Some u) None w = (w, Ok usr) ->
  role usr = UserEnum.SELLER ->
  buy_product_racing others u v n w
  = (w, Err (Exn UserNotBuyerException
               "User cannot buy product. The account is a Seller account")).
Proof.
  intros Hu Hr. unfold buy_product_racing, bind, try_except.
  rewrite Hu, Hr. reflexivity.
Qed.

Lemma seller_cannot_buy_witness :
  buy_product_racing (fun w => w) "Blade" "1234e" 10 (vending 10 5 500)
  = (vending 10 5 500,
     Err (Exn UserNotBuyerException
            "User cannot buy product. The account is a Seller account")).
Proof.
  apply (seller_cannot_buy (fun w => w) (vending 10 5 500) "Blade" "1234e" 10
           Blade); reflexivity.
Defined.
